(** * nipype.utils.config: the settings store [NipypeConfig]

    A shallow embedding of [nipype/utils/config.py].  The class keeps a
    [configparser.ConfigParser] in [self._config], a tri-state cache
    [self._resource_monitor] and the path of a JSON side file.  The
    embedding follows the Python text method by method; the calls into
    the standard [configparser] module are embedded in [Module
    ConfigParser] with the behaviour of a parser built by
    [ConfigParser()] with no arguments (lower-casing [optionxform],
    [BasicInterpolation], default section [DEFAULT], values must be
    strings). *)

From Stdlib Require Import ZArith Ascii String SpecFloat.
From stdpp Require Import base option strings gmap fin_maps list pretty.

Local Open Scope string_scope.

(** ** Python strings *)

Module PyStr.

(** [str.lower] on the ASCII range: section names, option names and
    values are taken to be ASCII text. *)
Definition lower_ascii (c : ascii) : ascii :=
  let n := nat_of_ascii c in
  if (65 <=? n)%nat && (n <=? 90)%nat then ascii_of_nat (n + 32) else c.

Fixpoint lower (s : string) : string :=
  match s with
  | EmptyString => EmptyString
  | String c r => String (lower_ascii c) (lower r)
  end.

Definition percent : ascii := "%"%char.

(** ['%' in s] *)
Fixpoint has_percent (s : string) : bool :=
  match s with
  | EmptyString => false
  | String c r => if Ascii.eqb c percent then true else has_percent r
  end.

(** [s.startswith(p)] *)
Fixpoint startswith (p s : string) : bool :=
  match p, s with
  | EmptyString, _ => true
  | String a p', String b s' => Ascii.eqb a b && startswith p' s'
  | String _ _, EmptyString => false
  end.

(** [str(b)] for a Python [bool]. *)
Definition str_of_bool (b : bool) : string := if b then "True" else "False".

End PyStr.

(** ** Exceptions and results *)

Inductive exn : Type :=
| NoSectionError (section : string)
| NoOptionError (option section : string)
| DuplicateSectionError (section : string)
| DuplicateOptionError (section option : string)
| InterpolationSyntaxError (option section : string)
| InterpolationMissingOptionError (option section reference : string)
| InterpolationDepthError (option section : string)
| ValueError (msg : string)
| TypeError (msg : string)
| ImportError (name : string)
| KeyError (key : string)
| JSONDecodeError
| OSError (errno : nat).

Inductive result (A : Type) : Type :=
| Raise (e : exn)
| Ret (a : A).
Arguments Raise {A} e.
Arguments Ret {A} a.

Definition rbind {A B} (r : result A) (k : A -> result B) : result B :=
  match r with
  | Raise e => Raise e
  | Ret a => k a
  end.

Definition raises {A} (r : result A) : bool :=
  match r with Raise _ => true | Ret _ => false end.

(** Python's [k in d] for a dictionary. *)
Definition py_in {V} (k : string) (d : gmap string V) : bool :=
  match d !! k with Some _ => true | None => false end.

(** ** The standard [configparser.ConfigParser]

    Only the entry points that [config.py] calls are embedded:
    [has_option], [get], [set], [getboolean] and the reading of an
    already tokenised INI source ([readfp] / [read]).  A parsed source is
    a list of sections, each a list of [key = value] lines in file order;
    sources that the tokeniser rejects are outside the embedding.  The
    parser is strict: a source that repeats a header, or an option under
    one header, is refused while it is read. *)

Module ConfigParser.
Import PyStr.

Record t : Type := mk {
  _defaults : gmap string string;
  _sections : gmap string (gmap string string)
}.

Definition empty : t := mk ∅ ∅.

Definition default_section : string := "DEFAULT".
Definition MAX_INTERPOLATION_DEPTH : nat := 10.

(** [optionxform(optionstr)] is [optionstr.lower()]. *)
Definition optionxform (optionstr : string) : string := lower optionstr.

(** [not section or section == self.default_section] *)
Definition is_default (section : string) : bool :=
  String.eqb section "" || String.eqb section default_section.

Definition has_option (cp : t) (section option : string) : bool :=
  if is_default section then py_in (optionxform option) (_defaults cp)
  else match _sections cp !! section with
       | None => false
       | Some d => py_in (optionxform option) d
                   || py_in (optionxform option) (_defaults cp)
       end.

(** The [ChainMap(vardict, sectiondict, self._defaults)] of
    [_unify_values], with an empty [vardict]. *)
Definition chain (sectiondict defaults : gmap string string) (k : string)
  : option string :=
  match sectiondict !! k with
  | Some v => Some v
  | None => defaults !! k
  end.

Definition _unify_values (cp : t) (section : string)
  : result (string -> option string) :=
  match _sections cp !! section with
  | Some d => Ret (chain d (_defaults cp))
  | None => if String.eqb section default_section
            then Ret (chain ∅ (_defaults cp))
            else Raise (NoSectionError section)
  end.

(** *** [BasicInterpolation] *)

(** Text up to the first [")"], and what follows that [")"]. *)
Fixpoint find_close (s : string) : option (string * string) :=
  match s with
  | EmptyString => None
  | String c r =>
      if Ascii.eqb c ")"%char then Some (EmptyString, r)
      else match find_close r with
           | Some (name, rest) => Some (String c name, rest)
           | None => None
           end
  end.

(** [_KEYCRE.match(s)] for [_KEYCRE = re.compile(r"%\(([^)]+)\)s")]:
    the captured name and the text after the match. *)
Definition keycre_match (s : string) : option (string * string) :=
  match s with
  | String "%" (String "(" r) =>
      match find_close r with
      | Some (String c name, String "s" rest) => Some (String c name, rest)
      | _ => None
      end
  | _ => None
  end.

(** [value.replace('%%', '')] *)
Fixpoint drop_escaped (s : string) : string :=
  match s with
  | EmptyString => EmptyString
  | String a t =>
      match t with
      | String b r =>
          if Ascii.eqb a percent && Ascii.eqb b percent then drop_escaped r
          else String a (drop_escaped t)
      | EmptyString => String a EmptyString
      end
  end.

(** [_KEYCRE.sub('', s)]; [skip] counts the characters of the current
    match that are still to be dropped. *)
Fixpoint keycre_sub (skip : nat) (s : string) : string :=
  match s with
  | EmptyString => EmptyString
  | String c r =>
      match skip with
      | S k => keycre_sub k r
      | O => match keycre_match s with
             | Some (name, _) => keycre_sub (String.length name + 3) r
             | None => String c (keycre_sub 0 r)
             end
      end
  end.

Definition before_set (value : string) : result string :=
  let tmp_value := keycre_sub 0 (drop_escaped value) in
  if has_percent tmp_value
  then Raise (ValueError "invalid interpolation syntax")
  else Ret value.

(** [_interpolate_some]: [fuel] is [MAX_INTERPOLATION_DEPTH + 1 - depth],
    so that running out of it is the depth error of the source. *)
Fixpoint _interpolate_some (fuel : nat) (map : string -> option string)
    (option section : string) : string -> result string :=
  match fuel with
  | O => fun _ => Raise (InterpolationDepthError option section)
  | S fuel' =>
      (fix loop (skip : nat) (rest : string) {struct rest} : result string :=
        match rest with
        | EmptyString => Ret EmptyString
        | String c r =>
            match skip with
            | S k => loop k r
            | O =>
                if Ascii.eqb c percent then
                  match r with
                  | String "%" _ =>
                      rbind (loop 1 r) (fun out => Ret (String percent out))
                  | String "(" _ =>
                      match keycre_match rest with
                      | None => Raise (InterpolationSyntaxError option section)
                      | Some (name, _) =>
                          let var := optionxform name in
                          match map var with
                          | None => Raise (InterpolationMissingOptionError
                                             option section var)
                          | Some v =>
                              rbind (if has_percent v
                                     then _interpolate_some fuel' map
                                            option section v
                                     else Ret v) (fun a =>
                              rbind (loop (String.length name + 3) r) (fun b =>
                              Ret (a +:+ b)))
                          end
                      end
                  | _ => Raise (InterpolationSyntaxError option section)
                  end
                else rbind (loop 0 r) (fun out => Ret (String c out))
            end
        end) 0
  end.

Definition before_get (map : string -> option string)
    (option section value : string) : result string :=
  _interpolate_some MAX_INTERPOLATION_DEPTH map option section value.

(** *** Accessors *)

(** [get(section, option)] with [raw=False], no [vars], no [fallback]. *)
Definition get (cp : t) (section option : string) : result string :=
  rbind (_unify_values cp section) (fun d =>
  let option := optionxform option in
  match d option with
  | None => Raise (NoOptionError option section)
  | Some value => before_get d option section value
  end).

Definition BOOLEAN_STATES (s : string) : option bool :=
  if String.eqb s "1" then Some true
  else if String.eqb s "yes" then Some true
  else if String.eqb s "true" then Some true
  else if String.eqb s "on" then Some true
  else if String.eqb s "0" then Some false
  else if String.eqb s "no" then Some false
  else if String.eqb s "false" then Some false
  else if String.eqb s "off" then Some false
  else None.

Definition _convert_to_boolean (value : string) : result bool :=
  match BOOLEAN_STATES (lower value) with
  | None => Raise (ValueError "Not a boolean")
  | Some b => Ret b
  end.

Definition getboolean (cp : t) (section option : string) : result bool :=
  rbind (get cp section option) _convert_to_boolean.

(** [set(section, option, value)]; [None] stands for any value that is
    not a [str], which [_validate_value_types] rejects. *)
Definition set (cp : t) (section option : string)
    (value : Datatypes.option string)
  : result t :=
  match value with
  | None => Raise (TypeError "option values must be strings")
  | Some value =>
      rbind (if String.eqb value "" then Ret value else before_set value)
        (fun value =>
      if is_default section then
        Ret (mk (<[optionxform option := value]> (_defaults cp)) (_sections cp))
      else match _sections cp !! section with
           | None => Raise (NoSectionError section)
           | Some sectdict =>
               Ret (mk (_defaults cp)
                       (<[section := <[optionxform option := value]> sectdict]>
                          (_sections cp)))
           end)
  end.

(** *** Reading a source *)

Definition ini : Type := list (string * list (string * string)).

(** [elements_added] of [_read]: the headers and the (header, option)
    pairs that the source being read has given so far. *)
Definition elements : Type := list string * list (string * string).

Definition added_section (sectname : string) (added : elements) : bool :=
  existsb (String.eqb sectname) (fst added).

Definition added_option (sectname optname : string)
    (opts : list (string * string)) : bool :=
  existsb (fun p => String.eqb (fst p) sectname && String.eqb (snd p) optname)
    opts.

(** The option lines under the header [sectname], written into [cursect]
    one by one.  A key that the source has given already under this
    header raises, with the earlier lines written. *)
Fixpoint read_lines (sectname : string) (items : list (string * string))
    (opts : list (string * string)) (cursect : gmap string string)
  : result unit * list (string * string) * gmap string string :=
  match items with
  | [] => (Ret tt, opts, cursect)
  | (optname, optval) :: rest =>
      let optname := optionxform optname in
      if added_option sectname optname opts
      then (Raise (DuplicateOptionError sectname optname), opts, cursect)
      else read_lines sectname rest ((sectname, optname) :: opts)
             (<[optname := optval]> cursect)
  end.

(** One header with its lines: the section is the one the parser has,
    the default section, or a new one, in this order. *)
Definition read_block (cp : t) (sec : string * list (string * string))
    (added : elements) : result unit * elements * t :=
  let (sectname, items) := sec in
  match _sections cp !! sectname with
  | Some cursect =>
      if added_section sectname added
      then (Raise (DuplicateSectionError sectname), added, cp)
      else
        let '(r, opts, cursect') :=
          read_lines sectname items (snd added) cursect in
        (r, (sectname :: fst added, opts),
         mk (_defaults cp) (<[sectname := cursect']> (_sections cp)))
  | None =>
      if String.eqb sectname default_section
      then
        let '(r, opts, defaults') :=
          read_lines sectname items (snd added) (_defaults cp) in
        (r, (fst added, opts), mk defaults' (_sections cp))
      else
        let '(r, opts, cursect') :=
          read_lines sectname items (snd added) ∅ in
        (r, (sectname :: fst added, opts),
         mk (_defaults cp) (<[sectname := cursect']> (_sections cp)))
  end.

Fixpoint read_blocks (cp : t) (source : ini) (added : elements)
  : result unit * t :=
  match source with
  | [] => (Ret tt, cp)
  | sec :: rest =>
      match read_block cp sec added with
      | (Raise e, _, cp') => (Raise e, cp')
      | (Ret _, added', cp') => read_blocks cp' rest added'
      end
  end.

(** [_read(fp, fpname)] on a tokenised source: the outcome, and the
    parser with what was read before an error.  ([__init__] is the only
    caller whose source can be refused, and the object it was building
    is dropped with the error.) *)
Definition _read (cp : t) (source : ini) : result unit * t :=
  read_blocks cp source ([], []).

(** **** What a reading amounts to *)

(** The first repetition that [_read] meets in a source, if any. *)
Fixpoint scan_lines (sectname : string) (items : list (string * string))
    (opts : list (string * string))
  : Datatypes.option exn * list (string * string) :=
  match items with
  | [] => (None, opts)
  | (optname, _) :: rest =>
      let optname := optionxform optname in
      if added_option sectname optname opts
      then (Some (DuplicateOptionError sectname optname), opts)
      else scan_lines sectname rest ((sectname, optname) :: opts)
  end.

Fixpoint scan (source : ini) (added : elements) : Datatypes.option exn :=
  match source with
  | [] => None
  | (sectname, items) :: rest =>
      if negb (String.eqb sectname default_section)
         && added_section sectname added
      then Some (DuplicateSectionError sectname)
      else
        match scan_lines sectname items (snd added) with
        | (Some e, _) => Some e
        | (None, opts) =>
            scan rest
              (if String.eqb sectname default_section then fst added
               else sectname :: fst added, opts)
        end
  end.

Definition duplicate (source : ini) : Datatypes.option exn :=
  scan source ([], []).

(** The tree that the lines of a source leave when none is refused:
    each line is written over what the section held. *)
Definition overlay_options (items : list (string * string))
    (cursect : gmap string string) : gmap string string :=
  fold_left (fun d kv => <[optionxform (fst kv) := snd kv]> d) items cursect.

Definition overlay_section (cp : t) (sec : string * list (string * string)) : t :=
  let (sectname, items) := sec in
  match _sections cp !! sectname with
  | Some cursect =>
      mk (_defaults cp) (<[sectname := overlay_options items cursect]> (_sections cp))
  | None =>
      if String.eqb sectname default_section
      then mk (overlay_options items (_defaults cp)) (_sections cp)
      else mk (_defaults cp) (<[sectname := overlay_options items ∅]> (_sections cp))
  end.

Definition overlay (cp : t) (source : ini) : t :=
  fold_left overlay_section source cp.

(** The value stored for [section]/[option], with neither the default
    section nor interpolation: [self._sections[section][option]]. *)
Definition stored (cp : t) (section option : string)
  : Datatypes.option string :=
  _sections cp !! section ≫= (.!! option).

(** The value that reading [items] leaves under the key [k], over a
    previous value [acc]: the last line whose key folds to [k] wins. *)
Definition read_value (k : string) (items : list (string * string))
    (acc : Datatypes.option string) : Datatypes.option string :=
  fold_left (fun acc kv =>
               if String.eqb (optionxform (fst kv)) k
               then Some (snd kv) else acc)
    items acc.

(** The parser never files the default section among the named ones:
    [_read] and [set] send it to [_defaults]. *)
Definition wf (cp : t) : Prop := _sections cp !! default_section = None.

(** What [get(section, option, raw=True)] returns, [None] when it
    raises. *)
Definition lookup (cp : t) (section option : string)
  : Datatypes.option string :=
  match _unify_values cp section with
  | Ret d => d (optionxform option)
  | Raise _ => None
  end.

End ConfigParser.

(** ** Python values that reach the store *)

Inductive pyval : Type :=
| PNone
| PBool (b : bool)
| PInt (z : Z)
| PStr (s : string)
| PBytes (s : string).

(** [isinstance(value, (str, bytes))] *)
Definition is_str_or_bytes (v : pyval) : bool :=
  match v with PStr _ | PBytes _ => true | _ => false end.

(** ** What the module takes from its surroundings *)

(** [homedir] and [getcwd] are the two paths interpolated into
    [default_cfg] when the module is imported, as the tokeniser returns
    them.  [str2bool] is [nipype.utils.misc.str2bool], which lives in
    another file: it is kept abstract.  [psutil] is the outcome of the
    probe of the setter: [None] when [import psutil] raises
    [ImportError], otherwise the outcome of the version comparison
    [LooseVersion(psutil.__version__) >= LooseVersion('5.0')].  The
    remaining fields are what [__init__] finds on disk. *)
Record Env : Type := {
  homedir : string;
  getcwd : string;
  str2bool : pyval -> result pyval;
  psutil : option (result bool);
  config_dir_exists : bool;
  config_file : option ConfigParser.ini;
  cwd_nipype_cfg : option ConfigParser.ini
}.

Definition CONFIG_DEPRECATIONS : list (string * (string * string)) :=
  [ ("profile_runtime", ("resource_monitor", "1.0"));
    ("filemanip_level", ("utils_level", "1.0")) ].

(** [CONFIG_DEPRECATIONS[option]], [None] when [option not in
    CONFIG_DEPRECATIONS]. *)
Fixpoint deprecation (table : list (string * (string * string)))
    (option : string) : Datatypes.option (string * string) :=
  match table with
  | [] => None
  | (old, new) :: rest =>
      if String.eqb old option then Some new else deprecation rest option
  end.

Definition default_cfg (homedir cwd : string) : ConfigParser.ini :=
  [ ("logging",
     [ ("workflow_level", "INFO");
       ("utils_level", "INFO");
       ("interface_level", "INFO");
       ("log_to_file", "false");
       ("log_directory", homedir);
       ("log_size", "16384000");
       ("log_rotate", "4") ]);
    ("execution",
     [ ("create_report", "true");
       ("crashdump_dir", cwd);
       ("display_variable", ":1");
       ("hash_method", "timestamp");
       ("job_finished_timeout", "5");
       ("keep_inputs", "false");
       ("local_hash_check", "true");
       ("matplotlib_backend", "Agg");
       ("plugin", "Linear");
       ("remove_node_directories", "false");
       ("remove_unnecessary_outputs", "true");
       ("try_hard_link_datasink", "true");
       ("single_thread_matlab", "true");
       ("crashfile_format", "pklz");
       ("stop_on_first_crash", "false");
       ("stop_on_first_rerun", "false");
       ("use_relative_paths", "false");
       ("stop_on_unknown_version", "false");
       ("write_provenance", "false");
       ("parameterize_dirs", "true");
       ("poll_sleep_duration", "2");
       ("xvfb_max_wait", "10");
       ("resource_monitor", "false");
       ("resource_monitor_frequency", "1") ]);
    ("check",
     [ ("interval", "1209600") ]) ].

(** ** The store *)

(** The two attributes of the object, with what it has done to the
    outside so far: the messages passed to [warn], oldest first, and the
    number of times [import psutil] was attempted. *)
Record NipypeConfig : Type := {
  _config : ConfigParser.t;
  _resource_monitor : option bool;
  warnings : list string;
  psutil_imports : nat
}.

(** Methods are state transformers that return or raise. *)
Definition M (A : Type) : Type := NipypeConfig -> result A * NipypeConfig.

Definition ret {A} (a : A) : M A := fun self => (Ret a, self).
Definition raise {A} (e : exn) : M A := fun self => (Raise e, self).
Definition bind {A B} (m : M A) (k : A -> M B) : M B :=
  fun self =>
    match m self with
    | (Raise e, self') => (Raise e, self')
    | (Ret a, self') => k a self'
    end.

Declare Scope py_scope.
Delimit Scope py_scope with py.
Notation "x <- c ;; k" := (bind c (fun x => k))
  (at level 100, c at next level, right associativity) : py_scope.
Notation "c ;;; k" := (bind c (fun _ => k))
  (at level 100, right associativity) : py_scope.
Local Open Scope py_scope.

(** [for x in l: body(x)] *)
Fixpoint for_each {A} (l : list A) (body : A -> M unit) : M unit :=
  match l with
  | [] => ret tt
  | x :: rest => body x ;;; for_each rest body
  end.

(** [try: body finally: final] *)
Definition try_finally {A} (body : M A) (final : M unit) : M A :=
  fun self =>
    match body self with
    | (r, self1) =>
        match final self1 with
        | (Raise e, self2) => (Raise e, self2)
        | (Ret _, self2) => (r, self2)
        end
    end.

(** [try: body except ImportError: pass] *)
Definition except_ImportError (body : M unit) : M unit :=
  fun self =>
    match body self with
    | (Raise (ImportError _), self1) => (Ret tt, self1)
    | other => other
    end.

Definition warn (msg : string) : M unit :=
  fun self =>
    (Ret tt, {| _config := _config self;
                _resource_monitor := _resource_monitor self;
                warnings := warnings self ++ [msg];
                psutil_imports := psutil_imports self |}).

Definition lift {A} (r : result A) : M A := fun self => (r, self).

Definition dq : string := String (ascii_of_nat 34) EmptyString.

Definition deprecation_msg (option version new : string) : string :=
  "Config option " +:+ dq +:+ option +:+ dq
  +:+ " has been deprecated as of nipype " +:+ version
  +:+ ". Please use " +:+ dq +:+ new +:+ dq +:+ " instead.".

(** ** The methods of [class NipypeConfig] *)

Module ConfigStore.

Section Methods.

Variable E : Env.

(** Attribute access. *)
Definition with_config (cp : ConfigParser.t) (self : NipypeConfig)
  : NipypeConfig :=
  {| _config := cp;
     _resource_monitor := _resource_monitor self;
     warnings := warnings self;
     psutil_imports := psutil_imports self |}.

Definition set_resource_monitor (v : option bool) : M unit :=
  fun self =>
    (Ret tt, {| _config := _config self;
                _resource_monitor := v;
                warnings := warnings self;
                psutil_imports := psutil_imports self |}).

Definition get_resource_monitor : M (option bool) :=
  fun self => (Ret (_resource_monitor self), self).

(** Calls on [self._config]. *)
Definition _config_has_option (section option : string) : M bool :=
  fun self => (Ret (ConfigParser.has_option (_config self) section option), self).

Definition _config_get (section option : string) : M string :=
  fun self => (ConfigParser.get (_config self) section option, self).

Definition _config_getboolean (section option : string) : M bool :=
  fun self => (ConfigParser.getboolean (_config self) section option, self).

Definition as_str (value : pyval) : Datatypes.option string :=
  match value with PStr s => Some s | _ => None end.

Definition _config_set (section option : string) (value : pyval) : M unit :=
  fun self =>
    match ConfigParser.set (_config self) section option (as_str value) with
    | Raise e => (Raise e, self)
    | Ret cp => (Ret tt, with_config cp self)
    end.

Definition _config_readfp (source : ConfigParser.ini) : M unit :=
  fun self =>
    let (r, cp) := ConfigParser._read (_config self) source in
    (r, with_config cp self).

(** The block shared by [get] and [set]:
    [if option in CONFIG_DEPRECATIONS: warn(msg); option = ...[0]]. *)
Definition substitute (option : string) : M string :=
  match deprecation CONFIG_DEPRECATIONS option with
  | Some (new, version) =>
      warn (deprecation_msg option version new) ;;; ret new
  | None => ret option
  end.

Definition has_option (section option : string) : M bool :=
  _config_has_option section option.

Definition get (section option : string) (default : pyval) : M pyval :=
  option <- substitute option ;;
  present <- _config_has_option section option ;;
  if (present : bool)
  then (v <- _config_get section option ;; ret (PStr v))
  else ret default.

Definition set (section option : string) (value : pyval) : M unit :=
  let value := match value with
               | PBool b => PStr (PyStr.str_of_bool b)
               | _ => value
               end in
  option <- substitute option ;;
  _config_set section option value.

Definition getboolean (section option : string) : M bool :=
  _config_getboolean section option.

Definition set_default_config : M unit :=
  _config_readfp (default_cfg (homedir E) (getcwd E)).

Definition enable_debug_mode : M unit :=
  _config_set "execution" "stop_on_first_crash" (PStr "true") ;;;
  _config_set "execution" "remove_unnecessary_outputs" (PStr "false") ;;;
  _config_set "execution" "keep_inputs" (PStr "true") ;;;
  _config_set "logging" "workflow_level" (PStr "DEBUG") ;;;
  _config_set "logging" "interface_level" (PStr "DEBUG").

Definition set_log_dir (log_dir : pyval) : M unit :=
  _config_set "logging" "log_directory" log_dir.

Definition enable_provenance : M unit :=
  _config_set "execution" "write_provenance" (PStr "true") ;;;
  _config_set "execution" "hash_method" (PStr "content").

(** ['%s' % self._resource_monitor] *)
Definition str_of_cache (rm : option bool) : string :=
  match rm with Some b => PyStr.str_of_bool b | None => "None" end.

(** [not self._resource_monitor] *)
Definition falsy (rm : option bool) : bool :=
  match rm with Some true => false | _ => true end.

Definition import_psutil : M (result bool) :=
  fun self =>
    let self' := {| _config := _config self;
                    _resource_monitor := _resource_monitor self;
                    warnings := warnings self;
                    psutil_imports := S (psutil_imports self) |} in
    match psutil E with
    | None => (Raise (ImportError "psutil"), self')
    | Some version_ok => (Ret version_ok, self')
    end.

(** [value.lower()] on a [str] or [bytes]. *)
Definition py_lower (value : pyval) : pyval :=
  match value with
  | PStr s => PStr (PyStr.lower s)
  | PBytes s => PBytes (PyStr.lower s)
  | other => other
  end.

(** The first two lines of the setter. *)
Definition coerce (value : pyval) : result pyval :=
  if is_str_or_bytes value then str2bool E (py_lower value) else Ret value.

(** The [resource_monitor] setter. *)
Definition resource_monitor_setter (value : pyval) : M unit :=
  value <- lift (coerce value) ;;
  match value with
  | PBool false => set_resource_monitor (Some false)
  | PBool true =>
      rm <- get_resource_monitor ;;
      if falsy rm then
        set_resource_monitor (Some false) ;;;
        try_finally
          (except_ImportError
             (version_ok <- import_psutil ;;
              b <- lift version_ok ;;
              set_resource_monitor (Some b)))
          (rm <- get_resource_monitor ;;
           (if falsy rm
            then warn ("Could not enable the resource monitor: psutil>=5.0"
                       +:+ " could not be imported.")
            else ret tt) ;;;
           _config_set "execution" "resource_monitor"
             (PStr (PyStr.lower (str_of_cache rm))))
      else ret tt
  | _ => ret tt
  end.

Definition py_of_cache (rm : option bool) : pyval :=
  match rm with Some b => PBool b | None => PNone end.

(** The [resource_monitor] getter. *)
Definition resource_monitor : M pyval :=
  rm <- get_resource_monitor ;;
  match rm with
  | Some b => ret (PBool b)
  | None =>
      v <- _config_get "execution" "resource_monitor" ;;
      resource_monitor_setter
        (if String.eqb v "" then PBool false else PStr v) ;;;
      rm <- get_resource_monitor ;;
      ret (py_of_cache rm)
  end.

Definition enable_resource_monitor : M unit :=
  resource_monitor_setter (PBool true).

(** The body of the loop that closes [__init__], for one option and
    one section. *)
Definition migrate_body (option section : string) : M unit :=
  present <- has_option section option ;;
  if (present : bool) then
    match deprecation CONFIG_DEPRECATIONS option with
    | None => raise (KeyError option)
    | Some (new_option, _) =>
        present_new <- has_option section new_option ;;
        if (present_new : bool) then ret tt
        else (v <- get section option PNone ;;
              set section new_option v)
    end
  else ret tt.

(** The loop itself; [options] is the order in which
    [for option in CONFIG_DEPRECATIONS] yields the keys. *)
Definition migrate (options : list string) : M unit :=
  for_each options (fun option =>
    for_each ["execution"; "logging"] (migrate_body option)).

(** [self._config.read([config_file, 'nipype.cfg'])]: a file that
    cannot be opened is skipped. *)
Definition _config_read (files : list (option ConfigParser.ini)) : M unit :=
  for_each files (fun f =>
    match f with
    | Some source => _config_readfp source
    | None => ret tt
    end).

Definition fresh : NipypeConfig :=
  {| _config := ConfigParser.empty;
     _resource_monitor := None;
     warnings := [];
     psutil_imports := 0 |}.

Definition __init__ : result unit * NipypeConfig :=
  (_config_readfp (default_cfg (homedir E) (getcwd E)) ;;;
   set_resource_monitor None ;;;
   (if config_dir_exists E
    then _config_read [config_file E; cwd_nipype_cfg E]
    else ret tt) ;;;
   migrate (map fst CONFIG_DEPRECATIONS)) fresh.

End Methods.

Section Bulk.

(** Python's builtin [str], which [update_config] applies to every
    value before it is stored. *)
Variable py_str : pyval -> string.

(** [config_dict[section]], [None] when [section not in config_dict]. *)
Fixpoint dict_get {V} (key : string) (d : list (string * V))
  : Datatypes.option V :=
  match d with
  | [] => None
  | (k, v) :: rest => if String.eqb k key then Some v else dict_get key rest
  end.

(** The innermost statement of [update_config], for one item of a
    section's dictionary. *)
Definition update_item (section : string) (kv : string * pyval) : M unit :=
  if negb (PyStr.startswith "__" (fst kv))
  then _config_set section (fst kv) (PStr (py_str (snd kv)))
  else ret tt.

Definition update_config
    (config_dict : list (string * list (string * pyval))) : M unit :=
  for_each ["execution"; "logging"; "check"] (fun section =>
    match dict_get section config_dict with
    | Some items => for_each items (update_item section)
    | None => ret tt
    end).

End Bulk.

End ConfigStore.

(** ** The JSON side file

    [get_data] and [save_data] touch nothing but the file named by
    [self.data_file] and its directory.  The text of a file is kept
    abstract, with [simplejson]'s [load] and [dump] as the two maps
    between texts and values; [portalocker.lock] is advisory and has no
    effect within one process. *)

(** The values that [load] returns and [dump] takes.  A dictionary is
    the list of its items in insertion order; Python keeps the keys
    distinct, and so does [PyDict.setitem]. *)
#[local] Unset Elimination Schemes.
Inductive json : Type :=
| JNull
| JBool (b : bool)
| JInt (z : Z)
| JFloat (x : spec_float)
| JStr (s : string)
| JList (items : list json)
| JDict (items : list (string * json)).
#[local] Set Elimination Schemes.

Module PyDict.

(** [key in d] *)
Fixpoint contains (key : string) (d : list (string * json)) : bool :=
  match d with
  | [] => false
  | (k, _) :: rest => if String.eqb k key then true else contains key rest
  end.

(** [d[key]] *)
Fixpoint getitem (key : string) (d : list (string * json)) : option json :=
  match d with
  | [] => None
  | (k, v) :: rest => if String.eqb k key then Some v else getitem key rest
  end.

(** [d[key] = value]: an existing key keeps its place, a new one goes
    last. *)
Fixpoint setitem (key : string) (value : json) (d : list (string * json))
  : list (string * json) :=
  match d with
  | [] => [(key, value)]
  | (k, v) :: rest =>
      if String.eqb k key then (k, value) :: rest
      else (k, v) :: setitem key value rest
  end.

End PyDict.

Module DataFile.

(** What a path names. *)
Inductive node : Type :=
| Missing
| Directory
| NotDirectory.

(** The part of the file system that the two methods see: what
    [os.path.dirname(self.data_file)] names, the content of the data
    file when it exists, and, when the next [os.makedirs] is to fail for
    a reason the two other fields do not show (a missing permission, a
    creation by another process in the meantime), its [errno] with what
    the path names afterwards.  A data file that exists can be opened;
    permissions on it are not modelled. *)
Record FS (text : Type) : Type := {
  dirname : node;
  data_file : option text;
  makedirs_raises : option (nat * node)
}.
Arguments dirname {text} _.
Arguments data_file {text} _.
Arguments makedirs_raises {text} _.

Definition ENOENT : nat := 2.
Definition EEXIST : nat := 17.
Definition ENOTDIR : nat := 20.

Section Codec.

Variable text : Type.
Variable empty_text : text.
Variable load : text -> result json.
Variable dump : json -> text.

Definition IO (A : Type) : Type := FS text -> result A * FS text.

(** [key in datadict] for whatever [load] returned. *)
Fixpoint substring (key s : string) : bool :=
  PyStr.startswith key s
  || match s with
     | EmptyString => false
     | String _ r => substring key r
     end.

Definition py_contains (key : string) (datadict : json) : result bool :=
  match datadict with
  | JDict d => Ret (PyDict.contains key d)
  | JList l =>
      Ret (existsb (fun x => match x with
                             | JStr s => String.eqb s key
                             | _ => false
                             end) l)
  | JStr s => Ret (substring key s)
  | _ => Raise (TypeError "argument is not iterable")
  end.

Definition py_getitem (datadict : json) (key : string) : result json :=
  match datadict with
  | JDict d => match PyDict.getitem key d with
               | Some v => Ret v
               | None => Raise (KeyError key)
               end
  | _ => Raise (TypeError "indices must be integers")
  end.

Definition py_setitem (datadict : json) (key : string) (value : json)
  : result json :=
  match datadict with
  | JDict d => Ret (JDict (PyDict.setitem key value d))
  | _ => Raise (TypeError "object does not support item assignment")
  end.

Definition with_dirname (n : node) (fs : FS text) : FS text :=
  {| dirname := n;
     data_file := data_file fs;
     makedirs_raises := makedirs_raises fs |}.

(** [os.path.isdir(path)] *)
Definition isdir (fs : FS text) : bool :=
  match dirname fs with Directory => true | _ => false end.

(** [os.makedirs(path)] *)
Definition os_makedirs : IO unit :=
  fun fs =>
    match makedirs_raises fs with
    | Some (errno, after) => (Raise (OSError errno), with_dirname after fs)
    | None =>
        match dirname fs with
        | Missing => (Ret tt, with_dirname Directory fs)
        | _ => (Raise (OSError EEXIST), fs)
        end
    end.

Definition mkdir_p : IO unit :=
  fun fs =>
    match os_makedirs fs with
    | (Raise (OSError errno), fs') =>
        if Nat.eqb errno EEXIST && isdir fs'
        then (Ret tt, fs')
        else (Raise (OSError errno), fs')
    | other => other
    end.

(** [get_data] returns Python's [None] as [JNull]. *)
Definition get_data (key : string) : IO json :=
  fun fs =>
    match data_file fs with
    | None => (Ret JNull, fs)
    | Some file =>
        (rbind (load file) (fun datadict =>
         rbind (py_contains key datadict) (fun present =>
         if (present : bool) then py_getitem datadict key else Ret JNull)),
         fs)
    end.

Definition write_file (file : text) (fs : FS text) : FS text :=
  {| dirname := dirname fs;
     data_file := Some file;
     makedirs_raises := makedirs_raises fs |}.

(** [open(self.data_file, 'wt')]: the file is emptied, or made in its
    directory; without the directory the call raises. *)
Definition open_wt : IO unit :=
  fun fs =>
    match data_file fs, dirname fs with
    | Some _, _ | None, Directory => (Ret tt, write_file empty_text fs)
    | None, Missing => (Raise (OSError ENOENT), fs)
    | None, NotDirectory => (Raise (OSError ENOTDIR), fs)
    end.

Definition save_data (key : string) (value : json) : IO unit :=
  fun fs =>
    let before :=
      match data_file fs with
      | Some file => (load file, fs)
      | None =>
          match dirname fs with
          | Missing =>
              match mkdir_p fs with
              | (Raise e, fs') => (Raise e, fs')
              | (Ret _, fs') => (Ret (JDict []), fs')
              end
          | _ => (Ret (JDict []), fs)
          end
      end in
    match before with
    | (Raise e, fs') => (Raise e, fs')
    | (Ret datadict, fs') =>
        match open_wt fs' with
        | (Raise e, fs'') => (Raise e, fs'')
        | (Ret _, fs'') =>
            match py_setitem datadict key value with
            | Raise e => (Raise e, fs'')
            | Ret datadict' => (Ret tt, write_file (dump datadict') fs'')
            end
        end
    end.

(** The content of the data file as [save_data] finds it: the loaded
    value, or the empty dictionary when there is no file. *)
Definition previous (fs : FS text) : result json :=
  match data_file fs with
  | Some file => load file
  | None => Ret (JDict [])
  end.

End Codec.

End DataFile.

(** ** Environments and stores used by the examples *)

(** [str2bool] as the doc of the setter describes it: the usual
    spellings of true and false, anything else is refused. *)
Definition sample_str2bool (v : pyval) : result pyval :=
  match v with
  | PBool b => Ret (PBool b)
  | PStr s =>
      if String.eqb s "yes" || String.eqb s "true"
         || String.eqb s "t" || String.eqb s "1" then Ret (PBool true)
      else if String.eqb s "no" || String.eqb s "false" || String.eqb s "n"
              || String.eqb s "f" || String.eqb s "0" then Ret (PBool false)
      else Raise (ValueError "cannot be converted to bool")
  | _ => Raise (ValueError "cannot be converted to bool")
  end.

(** No [~/.nipype] directory; [psutil] as given. *)
Definition plain_env (probe : option (result bool)) : Env :=
  {| homedir := "/home/user";
     getcwd := "/work";
     str2bool := sample_str2bool;
     psutil := probe;
     config_dir_exists := false;
     config_file := None;
     cwd_nipype_cfg := None |}.

(** A [~/.nipype/nipype.cfg] that still uses a deprecated name. *)
Definition legacy_env : Env :=
  {| homedir := "/home/user";
     getcwd := "/work";
     str2bool := sample_str2bool;
     psutil := None;
     config_dir_exists := true;
     config_file := Some [("logging", [("profile_runtime", "true")])];
     cwd_nipype_cfg := None |}.


(** The store right after construction in [plain_env]. *)
Definition default_store : NipypeConfig :=
  snd (ConfigStore.__init__ (plain_env None)).

(** The monitor enabled with a usable [psutil], then
    [execution.resource_monitor] overwritten through [set]. *)
Definition overridden_store : NipypeConfig :=
  snd (bind (ConfigStore.enable_resource_monitor (plain_env (Some (Ret true))))
         (fun _ => ConfigStore.set "execution" "resource_monitor" (PBool false))
         default_store).

(** The name under which [get] and [set] look an option up. *)
Definition resolve (option : string) : string :=
  match deprecation CONFIG_DEPRECATIONS option with
  | Some (new, _) => new
  | None => option
  end.

(** [section]/[option] is a line of the built-in template, with value
    [value]. *)
Definition in_template (E : Env) (section option value : string) : Prop :=
  exists items,
    In (section, items) (default_cfg (homedir E) (getcwd E))
    /\ In (option, value) items.



(** The store after one more call of [warn]. *)
Definition add_warning (msg : string) (self : NipypeConfig) : NipypeConfig :=
  {| _config := _config self;
     _resource_monitor := _resource_monitor self;
     warnings := warnings self ++ [msg];
     psutil_imports := psutil_imports self |}.

(** [default_store] after a value that refers to a missing key was set. *)
Definition interpolating_store : NipypeConfig :=
  snd (ConfigStore.set "execution" "crashdump_dir" (PStr "%(subject)s")
         default_store).



(** ** Properties of the parser that every method keeps *)

(** [m] keeps [P] of the parser, whether it returns or raises. *)
Definition keeps {A} (P : ConfigParser.t -> Prop) (m : M A) : Prop :=
  forall self, P (_config self) -> P (_config (snd (m self))).

(** [P] survives the two ways in which the parser is ever changed: a
    successful [set] and the reading of a section of a source. *)
Definition stable (P : ConfigParser.t -> Prop) : Prop :=
  (forall cp section option v cp',
      P cp -> ConfigParser.set cp section option v = Ret cp' -> P cp')
  /\ (forall cp sec, P cp -> P (ConfigParser.overlay_section cp sec)).

(** Every option name filed in the parser is in lower case. *)
Definition lower_keys (cp : ConfigParser.t) : Prop :=
  (forall k v, ConfigParser._defaults cp !! k = Some v -> PyStr.lower k = k)
  /\ (forall section d k v,
        ConfigParser._sections cp !! section = Some d ->
        d !! k = Some v -> PyStr.lower k = k).

(** What [m] leaves of the store outside the parser: the cache, the
    warnings and the probe counter are those of [self]. *)
Definition only_config (self self' : NipypeConfig) : Prop :=
  _resource_monitor self' = _resource_monitor self
  /\ warnings self' = warnings self
  /\ psutil_imports self' = psutil_imports self.

(** ** What construction reads *)

(** The files that [__init__] reads after the template, in order: those
    of [~/.nipype/nipype.cfg] and [nipype.cfg] that can be opened, when
    [~/.nipype] exists. *)
Definition files (E : Env) : list ConfigParser.ini :=
  if config_dir_exists E
  then omap id [config_file E; cwd_nipype_cfg E]
  else [].





(** ** [update_config] as a source *)

(** The lines that [update_config] writes for one section: the items
    whose key does not start with two underscores, with [str] applied
    to the values. *)
Definition update_lines (py_str : pyval -> string)
    (items : list (string * pyval)) : list (string * string) :=
  map (fun kv => (fst kv, py_str (snd kv)))
    (List.filter (fun kv => negb (PyStr.startswith "__" (fst kv))) items).

(** The dictionary handed to [update_config], as a source: the sections
    it visits, in the order it visits them. *)
Definition update_source (py_str : pyval -> string)
    (names : list string)
    (config_dict : list (string * list (string * pyval)))
  : ConfigParser.ini :=
  omap (fun section =>
          (fun items => (section, update_lines py_str items))
            <$> ConfigStore.dict_get section config_dict)
    names.

(** Python's [str] on the values of the examples; a [bytes] value is
    shown as Python 3 shows it when it needs no escapes. *)
Definition sample_str (v : pyval) : string :=
  match v with
  | PNone => "None"
  | PBool b => PyStr.str_of_bool b
  | PInt z => pretty z
  | PStr s => s
  | PBytes s => "b'" +:+ s +:+ "'"
  end.

(** A dictionary as the workflow engine hands it to [update_config]. *)
Definition sample_config_dict : list (string * list (string * pyval)) :=
  [ ("execution", [ ("profile_runtime", PBool true);
                    ("__meta", PInt 1);
                    ("Plugin", PStr "MultiProc") ]);
    ("monitoring", [ ("enabled", PStr "100%") ]);
    ("check", [ ("interval", PInt 3600) ]) ].

(** ** Outcome of the probe of the setter *)

(** [psutil] can be imported and its version compares as at least 5.0. *)
Definition psutil_usable (E : Env) : bool :=
  match psutil E with
  | Some (Ret b) => b
  | _ => false
  end.

(** What the setter returns or raises once the probe has run: an error
    of the version comparison other than [ImportError] gets through. *)
Definition probe_outcome (E : Env) : result unit :=
  match psutil E with
  | Some (Raise (ImportError _)) => Ret tt
  | Some (Raise e) => Raise e
  | _ => Ret tt
  end.

Definition psutil_warning : string :=
  "Could not enable the resource monitor: psutil>=5.0"
  +:+ " could not be imported.".

(** * Properties *)

(** ** Strings without a percent sign pass through the parser unchanged *)

Section Interpolation.
Import PyStr ConfigParser.

Lemma has_percent_cons c s :
  has_percent (String c s) = false ->
  Ascii.eqb c percent = false /\ has_percent s = false.
Proof.
  simpl. destruct (Ascii.eqb c percent); [discriminate | auto].
Qed.

Lemma drop_escaped_plain s : has_percent s = false -> drop_escaped s = s.
Proof.
  induction s as [| a t IH]; [reflexivity |].
  intros [Ha Ht]%has_percent_cons. simpl.
  destruct t as [| b r]; [reflexivity |].
  change (drop_escaped (String a (String b r)))
    with (if Ascii.eqb a percent && Ascii.eqb b percent
          then drop_escaped r
          else String a (drop_escaped (String b r))).
  rewrite Ha. cbn [andb]. now rewrite (IH Ht).
Qed.

Lemma keycre_match_plain c s :
  Ascii.eqb c percent = false -> keycre_match (String c s) = None.
Proof.
  intros Hc. unfold keycre_match.
  destruct c as [[] [] [] [] [] [] [] []]; try reflexivity; discriminate.
Qed.

Lemma keycre_sub_plain s : has_percent s = false -> keycre_sub 0 s = s.
Proof.
  induction s as [| c r IH]; [reflexivity |].
  intros [Hc Hr]%has_percent_cons.
  cbn [keycre_sub]. rewrite (keycre_match_plain _ _ Hc).
  now rewrite (IH Hr).
Qed.

Lemma before_set_plain s : has_percent s = false -> before_set s = Ret s.
Proof.
  intros H. unfold before_set.
  rewrite (drop_escaped_plain _ H), (keycre_sub_plain _ H).
  now rewrite H.
Qed.

Lemma interpolate_plain fuel map o sec s :
  has_percent s = false ->
  _interpolate_some (S fuel) map o sec s = Ret s.
Proof.
  cbn [_interpolate_some].
  induction s as [| c r IH]; [reflexivity |].
  intros [Hc Hr]%has_percent_cons.
  cbn. rewrite Hc. cbn in IH. rewrite (IH Hr). reflexivity.
Qed.

Lemma before_get_plain map o sec s :
  has_percent s = false -> before_get map o sec s = Ret s.
Proof. apply interpolate_plain. Qed.

Lemma str_of_bool_plain b : has_percent (str_of_bool b) = false.
Proof. now destruct b. Qed.

Lemma convert_str_of_bool b : _convert_to_boolean (str_of_bool b) = Ret b.
Proof. now destruct b. Qed.

End Interpolation.

(** ** Reading the parser *)

Section ParserFacts.
Import PyStr ConfigParser.



(** An option that [has_option] sees has a raw value, except under the
    empty section name, which [has_option] and [set] read as the default
    section and [get] does not. *)
Lemma has_option_lookup cp section option :
  section <> "" ->
  has_option cp section option = true ->
  exists v, lookup cp section option = Some v.
Proof.
  intros Hne. unfold has_option, lookup, _unify_values, is_default.
  destruct (String.eqb_spec section ""); [done |]. cbn [orb].
  destruct (_sections cp !! section) as [d |] eqn:Hs.
  - destruct (String.eqb section default_section).
    + unfold py_in, chain. destruct (d !! optionxform option); [eauto |].
      destruct (_defaults cp !! optionxform option); [eauto | discriminate].
    + unfold py_in, chain. destruct (d !! optionxform option); [eauto |].
      destruct (_defaults cp !! optionxform option); [eauto | discriminate].
  - destruct (String.eqb section default_section); [| discriminate].
    unfold py_in, chain. rewrite lookup_empty.
    destruct (_defaults cp !! optionxform option); [eauto | discriminate].
Qed.

(** A raw value without a percent sign is what [get] returns. *)
Lemma get_lookup_plain cp section option v :
  lookup cp section option = Some v ->
  has_percent v = false ->
  get cp section option = Ret v.
Proof.
  unfold lookup, get. destruct (_unify_values cp section) as [e | d];
    [discriminate |].
  cbn [rbind]. intros -> Hv. now apply before_get_plain.
Qed.

(** [wf] holds of a new parser and is kept by reading and writing. *)
Lemma wf_empty : wf ConfigParser.empty.
Proof. reflexivity. Qed.

Lemma wf_read_section cp sec : wf cp -> wf (overlay_section cp sec).
Proof.
  unfold wf, overlay_section. destruct sec as [sectname items]. intros Hwf.
  destruct (_sections cp !! sectname) as [cursect |] eqn:Hcur.
  - cbn [_sections]. rewrite lookup_insert_ne; [exact Hwf |].
    intros ->. congruence.
  - destruct (String.eqb_spec sectname default_section) as [-> | Hne];
      cbn [_sections]; [exact Hwf |].
    now rewrite lookup_insert_ne.
Qed.

Lemma wf_read cp source : wf cp -> wf (overlay cp source).
Proof.
  unfold overlay. revert cp.
  induction source as [| sec source IH]; intros cp Hwf; [exact Hwf |].
  cbn [fold_left]. apply IH. now apply wf_read_section.
Qed.

Lemma wf_set cp section option v cp' :
  wf cp -> ConfigParser.set cp section option v = Ret cp' -> wf cp'.
Proof.
  unfold wf, ConfigParser.set. intros Hwf.
  destruct v as [v |]; [| discriminate].
  destruct (if String.eqb v "" then Ret v else before_set v) as [e | v'];
    [discriminate |].
  cbn [rbind]. unfold is_default.
  destruct (String.eqb_spec section ""); cbn [orb].
  - now intros [= <-].
  - destruct (String.eqb_spec section default_section) as [-> | Hne].
    + now intros [= <-].
    + destruct (_sections cp !! section); [| discriminate].
      intros [= <-]. cbn [_sections]. now rewrite lookup_insert_ne.
Qed.

Lemma xform_resource_monitor :
  optionxform "resource_monitor" = "resource_monitor".
Proof. reflexivity. Qed.

End ParserFacts.

(** ** Reading a source *)

Section Reading.
Import PyStr ConfigParser.

Lemma read_lines_shape sectname items opts cursect :
  exists items',
    read_lines sectname items opts cursect
    = (match fst (scan_lines sectname items opts) with
       | Some e => Raise e
       | None => Ret tt
       end,
       snd (scan_lines sectname items opts),
       overlay_options items' cursect)
    /\ (fst (scan_lines sectname items opts) = None -> items' = items).
Proof.
  revert opts cursect.
  induction items as [| [optname optval] items IH]; intros opts cursect.
  - exists []. now split.
  - cbn [read_lines scan_lines].
    destruct (added_option sectname (optionxform optname) opts).
    + exists []. split; [reflexivity | discriminate].
    + destruct (IH ((sectname, optionxform optname) :: opts)
                  (<[optionxform optname := optval]> cursect))
        as (items' & -> & Hall).
      exists ((optname, optval) :: items'). split; [reflexivity |].
      intros Hnone. now rewrite (Hall Hnone).
Qed.

(** What one header with its lines does: refused at the header, with
    nothing changed, or read as far as its lines go. *)
Lemma read_block_shape cp sectname items added :
  (is_Some (_sections cp !! sectname)
   /\ added_section sectname added = true
   /\ read_block cp (sectname, items) added
      = (Raise (DuplicateSectionError sectname), added, cp))
  \/ ((_sections cp !! sectname = None
       \/ added_section sectname added = false)
      /\ exists items',
          read_block cp (sectname, items) added
          = (match fst (scan_lines sectname items (snd added)) with
             | Some e => Raise e
             | None => Ret tt
             end,
             (match _sections cp !! sectname with
              | Some _ => sectname :: fst added
              | None => if String.eqb sectname default_section
                        then fst added else sectname :: fst added
              end,
              snd (scan_lines sectname items (snd added))),
             overlay_section cp (sectname, items'))
          /\ (fst (scan_lines sectname items (snd added)) = None ->
              items' = items)).
Proof.
  unfold read_block, overlay_section.
  destruct (_sections cp !! sectname) as [cursect |] eqn:Hs.
  - destruct (added_section sectname added) eqn:Ha; [left; eauto |].
    right. split; [now right |].
    destruct (read_lines_shape sectname items (snd added) cursect)
      as (items' & -> & Hall).
    exists items'. now split.
  - right. split; [now left |].
    destruct (String.eqb sectname default_section).
    + destruct (read_lines_shape sectname items (snd added) (_defaults cp))
        as (items' & -> & Hall).
      exists items'. now split.
    + destruct (read_lines_shape sectname items (snd added) ∅)
        as (items' & -> & Hall).
      exists items'. now split.
Qed.

Lemma overlay_app cp source1 source2 :
  overlay (overlay cp source1) source2
  = overlay cp (source1 ++ source2)%list.
Proof. unfold overlay. now rewrite fold_left_app. Qed.

(** Whether it returns or raises, a reading leaves the parser as the
    overlay of the lines it got through. *)
Lemma read_blocks_partial cp source added :
  exists source', snd (read_blocks cp source added) = overlay cp source'.
Proof.
  revert cp added.
  induction source as [| [sectname items] source IH]; intros cp added.
  - now exists [].
  - cbn [read_blocks].
    destruct (read_block_shape cp sectname items added)
      as [(_ & _ & ->) | (_ & items' & -> & _)].
    + now exists [].
    + destruct (fst (scan_lines sectname items (snd added))).
      * now exists [(sectname, items')].
      * destruct (IH (overlay_section cp (sectname, items'))
                    (match _sections cp !! sectname with
                     | Some _ => sectname :: fst added
                     | None => if String.eqb sectname default_section
                               then fst added else sectname :: fst added
                     end, snd (scan_lines sectname items (snd added))))
          as [source' ->].
        now exists ((sectname, items') :: source').
Qed.

Lemma read_partial cp source :
  exists source', snd (_read cp source) = overlay cp source'.
Proof. apply read_blocks_partial. Qed.

Lemma added_section_In sectname added :
  added_section sectname added = true <-> In sectname (fst added).
Proof.
  unfold added_section. rewrite existsb_exists. split.
  - intros (h & Hin & Heq). apply String.eqb_eq in Heq. now subst.
  - intros Hin. exists sectname. split; [exact Hin | apply String.eqb_refl].
Qed.

Lemma overlay_section_keeps cp sec s :
  is_Some (_sections cp !! s) ->
  is_Some (_sections (overlay_section cp sec) !! s).
Proof.
  destruct sec as [sectname items]. unfold overlay_section. intros Hs.
  destruct (_sections cp !! sectname) as [cursect |];
    [| destruct (String.eqb sectname default_section)];
    cbn [_sections]; try exact Hs;
    (destruct (decide (sectname = s)) as [-> | Hne];
     [rewrite lookup_insert_eq; eauto | now rewrite lookup_insert_ne]).
Qed.

(** On a parser that keeps the default section apart, or for a source
    without a [DEFAULT] header, a reading raises exactly the first
    repetition of the source, and without one it leaves the overlay. *)
Lemma read_blocks_exact cp source added :
  (forall h, In h (fst added) -> is_Some (_sections cp !! h)) ->
  wf cp \/ Forall (fun sec => fst sec <> default_section) source ->
  fst (read_blocks cp source added)
  = match scan source added with Some e => Raise e | None => Ret tt end
  /\ (scan source added = None ->
      snd (read_blocks cp source added) = overlay cp source).
Proof.
  revert cp added.
  induction source as [| [sectname items] source IH];
    intros cp added Hadded Hdef; [now split |].
  assert (Hnamed : is_Some (_sections cp !! sectname) ->
                   String.eqb sectname default_section = false).
  { intros [d Hd]. apply String.eqb_neq. intros ->.
    destruct Hdef as [Hwf | Hall].
    - unfold wf in Hwf. congruence.
    - now inversion Hall. }
  cbn [read_blocks scan].
  destruct (read_block_shape cp sectname items added)
    as [(Hs & Ha & ->) | (Hfree & items' & -> & Hall)].
  - rewrite (Hnamed Hs), Ha. cbn. split; [reflexivity | discriminate].
  - assert (Ha : negb (String.eqb sectname default_section)
                 && added_section sectname added = false).
    { destruct (added_section sectname added) eqn:Ha;
        [| apply andb_false_r].
      destruct Hfree as [Hnone | Hfalse]; [| discriminate].
      apply added_section_In, Hadded in Ha. rewrite Hnone in Ha.
      now destruct Ha. }
    rewrite Ha.
    destruct (scan_lines sectname items (snd added)) as [[e |] opts] eqn:Hscan;
      cbn [fst snd] in *; [split; [reflexivity | discriminate] |].
    rewrite (Hall eq_refl).
    assert (Hsecs : match _sections cp !! sectname with
                    | Some _ => sectname :: fst added
                    | None => if String.eqb sectname default_section
                              then fst added else sectname :: fst added
                    end
                    = if String.eqb sectname default_section
                      then fst added else sectname :: fst added).
    { destruct (_sections cp !! sectname) as [d |] eqn:Hd; [| reflexivity].
      rewrite Hnamed; [reflexivity | eauto]. }
    rewrite Hsecs.
    apply (IH (overlay_section cp (sectname, items))).
    + cbn [fst]. intros h Hh.
      assert (Hold : In h (fst added) ->
                     is_Some (_sections (overlay_section cp (sectname, items))
                              !! h)).
      { intros Hin. apply overlay_section_keeps, Hadded, Hin. }
      destruct (String.eqb sectname default_section) eqn:Hd; [auto |].
      destruct Hh as [<- | Hh]; [| auto].
      unfold overlay_section. rewrite Hd.
      destruct (_sections cp !! sectname); cbn [_sections];
        rewrite lookup_insert_eq; eauto.
    + destruct Hdef as [Hwf | Hall'].
      * left. now apply wf_read_section.
      * right. now inversion Hall'.
Qed.

Lemma read_exact cp source :
  wf cp \/ Forall (fun sec => fst sec <> default_section) source ->
  fst (_read cp source)
  = match duplicate source with Some e => Raise e | None => Ret tt end
  /\ (duplicate source = None -> _read cp source = (Ret tt, overlay cp source)).
Proof.
  intros Hdef. unfold _read, duplicate.
  destruct (read_blocks_exact cp source ([], [])) as [Hfst Hsnd];
    [intros h [] | exact Hdef |].
  split; [exact Hfst |]. intros Hnone.
  rewrite Hnone in Hfst. specialize (Hsnd Hnone).
  destruct (read_blocks cp source ([], [])) as [r cp']. cbn in *. congruence.
Qed.

(** The template repeats nothing and has no [DEFAULT] header: reading
    it never fails. *)
Lemma read_template cp h c :
  _read cp (default_cfg h c) = (Ret tt, overlay cp (default_cfg h c)).
Proof.
  apply read_exact; [| reflexivity].
  right. unfold default_cfg. repeat constructor; discriminate.
Qed.

End Reading.

(** ** The [resource_monitor] setter *)

Section Setter.
Import ConfigStore.

(** C8.  Assigning a value that coerces to [False] caches [False] and
    does nothing else: the probe counter, the warnings and the whole
    settings tree are those of the store before the assignment. *)
Theorem setter_false_caches_only (E : Env) (self : NipypeConfig)
    (value : pyval) :
  coerce E value = Ret (PBool false) ->
  resource_monitor_setter E value self
  = (Ret tt, {| _config := _config self;
                _resource_monitor := Some false;
                warnings := warnings self;
                psutil_imports := psutil_imports self |}).
Proof.
  intros H. unfold resource_monitor_setter, bind, lift. now rewrite H.
Qed.

Lemma setter_false_caches_only_witness :
  resource_monitor_setter (plain_env None) (PStr "False") default_store
  = (Ret tt, {| _config := _config default_store;
                _resource_monitor := Some false;
                warnings := warnings default_store;
                psutil_imports := psutil_imports default_store |}).
Proof.
  apply (setter_false_caches_only (plain_env None) default_store
           (PStr "False")).
  reflexivity.
Defined.

(** C9.  A value that does not coerce to a boolean (an integer, [None],
    or a string for which [str2bool] gives no boolean) leaves the store
    exactly as it was; when the coercion itself returns, so does the
    assignment. *)
Theorem setter_non_boolean_noop (E : Env) (self : NipypeConfig)
    (value : pyval) :
  (forall b, coerce E value <> Ret (PBool b)) ->
  snd (resource_monitor_setter E value self) = self
  /\ (forall w, coerce E value = Ret w ->
                resource_monitor_setter E value self = (Ret tt, self)).
Proof.
  intros H. unfold resource_monitor_setter, bind, lift.
  destruct (coerce E value) as [e | w] eqn:Hc.
  - split; [reflexivity | discriminate].
  - assert (Hw : forall b, w <> PBool b) by (intros b ->; now apply (H b)).
    destruct w as [| b | z | s | s]; try (split; [reflexivity | auto]).
    now destruct (Hw b).
Qed.

Lemma setter_non_boolean_noop_witness :
  resource_monitor_setter (plain_env None) (PInt 1) default_store
  = (Ret tt, default_store).
Proof.
  refine (proj2 (setter_non_boolean_noop (plain_env None) default_store
                   (PInt 1) _) (PInt 1) _).
  - intros b. discriminate.
  - reflexivity.
Defined.

(** C2, as the code has it.  With [True] already cached, assigning a
    value that coerces to [True] changes nothing at all: the guard
    [if not self._resource_monitor] skips the probe and the write into
    [execution.resource_monitor] alike. *)
Theorem setter_true_cached_noop (E : Env) (self : NipypeConfig)
    (value : pyval) :
  _resource_monitor self = Some true ->
  coerce E value = Ret (PBool true) ->
  resource_monitor_setter E value self = (Ret tt, self).
Proof.
  intros Hrm Hc.
  unfold resource_monitor_setter, bind, lift, get_resource_monitor.
  rewrite Hc, Hrm. reflexivity.
Qed.

End Setter.

Section SetterExamples.
Import ConfigStore.

Lemma setter_true_cached_noop_witness :
  resource_monitor_setter (plain_env (Some (Ret true))) (PStr "TRUE")
    overridden_store
  = (Ret tt, overridden_store).
Proof.
  apply (setter_true_cached_noop (plain_env (Some (Ret true)))
           overridden_store (PStr "TRUE")); reflexivity.
Defined.

(** C2, as the claim has it, fails on [overridden_store]: the monitor
    was enabled, the option was then set to [False] by hand, and a
    second assignment of [True] does not write it back. *)
Lemma setter_true_cached_writes_nothing :
  ~ (forall (E : Env) (self : NipypeConfig),
       _resource_monitor self = Some true ->
       let self' := snd (resource_monitor_setter E (PBool true) self) in
       _resource_monitor self' = Some true
       /\ ConfigParser.stored (_config self') "execution" "resource_monitor"
          = Some "true").
Proof.
  intros H.
  destruct (H (plain_env (Some (Ret true))) overridden_store eq_refl)
    as [_ Hw].
  vm_compute in Hw. discriminate Hw.
Qed.

End SetterExamples.

(** ** The [resource_monitor] getter *)

Section Getter.
Import ConfigStore.




End Getter.

(** ** [get], [set] and [getboolean] *)

Section GetSet.
Import PyStr ConfigParser.

Lemma set_inv cp section option v cp' :
  ConfigParser.set cp section option (Some v) = Ret cp' ->
  (is_default section = true
   /\ cp' = mk (<[optionxform option := v]> (_defaults cp)) (_sections cp))
  \/ (is_default section = false
      /\ exists d, _sections cp !! section = Some d
         /\ cp' = mk (_defaults cp)
                   (<[section := <[optionxform option := v]> d]>
                      (_sections cp))).
Proof.
  unfold ConfigParser.set.
  assert (Hv : (if String.eqb v "" then Ret v else before_set v) = Ret v
               \/ exists e, (if String.eqb v "" then Ret v else before_set v)
                            = Raise e).
  { destruct (String.eqb v ""); [now left |].
    unfold before_set. destruct (has_percent _); eauto. }
  destruct Hv as [-> | [e ->]]; [| discriminate].
  cbn [rbind]. destruct (is_default section).
  - intros [= <-]. now left.
  - destruct (_sections cp !! section) as [d |]; [| discriminate].
    intros [= <-]. right. eauto.
Qed.

(** What was written under one spelling of an option is the raw value
    under every spelling with the same lower-case form. *)
Lemma set_lookup cp section o1 o2 v cp' :
  ConfigParser.set cp section o1 (Some v) = Ret cp' ->
  section <> "" -> wf cp ->
  optionxform o1 = optionxform o2 ->
  lookup cp' section o2 = Some v
  /\ has_option cp' section o2 = true.
Proof.
  intros Hset Hne Hwf Hx.
  apply set_inv in Hset as [[Hdef ->] | [Hdef (d & Hd & ->)]].
  - unfold is_default in Hdef.
    destruct (String.eqb_spec section ""); [done |]. cbn [orb] in Hdef.
    apply String.eqb_eq in Hdef as ->.
    unfold lookup, has_option, _unify_values. cbn.
    rewrite Hwf. unfold chain, py_in. rewrite lookup_empty.
    fold (optionxform o2). rewrite <- Hx.
    now rewrite lookup_insert_eq.
  - unfold lookup, has_option, _unify_values. rewrite Hdef. cbn.
    rewrite lookup_insert_eq. unfold chain, py_in. rewrite <- Hx.
    now rewrite lookup_insert_eq.
Qed.

Lemma set_other_sections cp section option v cp' s2 :
  ConfigParser.set cp section option (Some v) = Ret cp' ->
  s2 <> section ->
  _sections cp' !! s2 = _sections cp !! s2.
Proof.
  intros Hset Hne.
  apply set_inv in Hset as [[_ ->] | [_ (d & _ & ->)]]; [reflexivity |].
  cbn. now rewrite lookup_insert_ne.
Qed.

Lemma substitute_plain option self :
  deprecation CONFIG_DEPRECATIONS option = None ->
  ConfigStore.substitute option self = (Ret option, self).
Proof. unfold ConfigStore.substitute. now intros ->. Qed.

Lemma substitute_resolve option self :
  fst (ConfigStore.substitute option self) = Ret (resolve option)
  /\ _config (snd (ConfigStore.substitute option self)) = _config self.
Proof.
  unfold ConfigStore.substitute, resolve.
  destruct (deprecation CONFIG_DEPRECATIONS option) as [[new version] |];
    split; reflexivity.
Qed.

(** A successful [set] of a string on a current option name is a
    successful [ConfigParser.set]. *)
Lemma store_set_inv section option v self self' :
  deprecation CONFIG_DEPRECATIONS option = None ->
  ConfigStore.set section option (PStr v) self = (Ret tt, self') ->
  exists cp', ConfigParser.set (_config self) section option (Some v) = Ret cp'
              /\ self' = ConfigStore.with_config cp' self.
Proof.
  intros Hdep. unfold ConfigStore.set, bind.
  rewrite (substitute_plain _ _ Hdep). unfold ConfigStore._config_set.
  cbn [ConfigStore.as_str].
  destruct (ConfigParser.set (_config self) section option (Some v))
    as [e | cp']; [discriminate |].
  intros [= <-]. eauto.
Qed.

(** C3, as the code has it.  For an option name that is not a
    deprecated alias and a section name that is not empty, a boolean
    written by [set] is the boolean [getboolean] reads back: [set]
    stores [str(b)], which the parser lower-cases and finds among its
    boolean spellings. *)
Theorem set_bool_getboolean (section option : string) (b : bool)
    (self self' : NipypeConfig) :
  deprecation CONFIG_DEPRECATIONS option = None ->
  section <> "" ->
  wf (_config self) ->
  ConfigStore.set section option (PBool b) self = (Ret tt, self') ->
  ConfigStore.getboolean section option self' = (Ret b, self').
Proof.
  intros Hdep Hne Hwf Hset.
  change (ConfigStore.set section option (PBool b) self)
    with (ConfigStore.set section option (PStr (str_of_bool b)) self)
    in Hset.
  apply (store_set_inv _ _ _ _ _ Hdep) in Hset as (cp' & Hset & ->).
  destruct (set_lookup _ _ _ option _ _ Hset Hne Hwf eq_refl) as [Hl _].
  unfold ConfigStore.getboolean, ConfigStore._config_getboolean, getboolean.
  cbn [_config ConfigStore.with_config].
  rewrite (get_lookup_plain _ _ _ _ Hl (str_of_bool_plain b)).
  cbn [rbind]. now rewrite convert_str_of_bool.
Qed.

Lemma set_bool_getboolean_witness :
  ConfigStore.getboolean "execution" "Keep_Inputs"
    (snd (ConfigStore.set "execution" "Keep_Inputs" (PBool true)
            default_store))
  = (Ret true,
     snd (ConfigStore.set "execution" "Keep_Inputs" (PBool true)
            default_store)).
Proof.
  apply (set_bool_getboolean "execution" "Keep_Inputs" true default_store).
  - reflexivity.
  - discriminate.
  - reflexivity.
  - reflexivity.
Defined.

(** C3, as the claim has it, fails for a deprecated name: [set] files
    the boolean under the replacement and [getboolean], which does not
    substitute, finds nothing under the old name. *)
Lemma set_bool_alias_not_read_back :
  ~ (forall (section option : string) (b : bool)
            (self self' : NipypeConfig),
       ConfigStore.set section option (PBool b) self = (Ret tt, self') ->
       fst (ConfigStore.getboolean section option self') = Ret b).
Proof.
  intros H.
  specialize (H "execution" "profile_runtime" true default_store _ eq_refl).
  vm_compute in H. discriminate H.
Qed.

(** C4, as the code has it.  Option names are folded to lower case
    before they reach the tree, so two spellings with the same
    lower-case form address one option: what [set] wrote under one,
    [get] returns under the other.  Section names are compared as
    they are: a write leaves every section with another name
    untouched. *)
Theorem option_names_fold_case (section o1 o2 v : string)
    (default : pyval) (self self' : NipypeConfig) :
  lower o1 = lower o2 ->
  deprecation CONFIG_DEPRECATIONS o1 = None ->
  deprecation CONFIG_DEPRECATIONS o2 = None ->
  section <> "" ->
  wf (_config self) ->
  has_percent v = false ->
  ConfigStore.set section o1 (PStr v) self = (Ret tt, self') ->
  ConfigStore.get section o2 default self' = (Ret (PStr v), self')
  /\ (forall s2, s2 <> section ->
                 _sections (_config self') !! s2
                 = _sections (_config self) !! s2).
Proof.
  intros Hlow Hd1 Hd2 Hne Hwf Hv Hset.
  apply (store_set_inv _ _ _ _ _ Hd1) in Hset as (cp' & Hset & ->).
  split.
  - destruct (set_lookup _ _ _ o2 _ _ Hset Hne Hwf Hlow) as [Hl Hh].
    unfold ConfigStore.get, bind. rewrite (substitute_plain _ _ Hd2).
    unfold ConfigStore._config_has_option, ConfigStore._config_get.
    cbv beta iota. cbn [_config ConfigStore.with_config]. rewrite Hh.
    cbv beta iota. cbn [_config ConfigStore.with_config].
    now rewrite (get_lookup_plain _ _ _ _ Hl Hv).
  - intros s2 Hs2. cbn [_config ConfigStore.with_config].
    exact (set_other_sections _ _ _ _ _ _ Hset Hs2).
Qed.

Lemma option_names_fold_case_witness :
  ConfigStore.get "execution" "key" PNone
    (snd (ConfigStore.set "execution" "Key" (PStr "v") default_store))
  = (Ret (PStr "v"),
     snd (ConfigStore.set "execution" "Key" (PStr "v") default_store)).
Proof.
  apply (option_names_fold_case "execution" "Key" "key" "v" PNone
           default_store).
  - reflexivity.
  - reflexivity.
  - reflexivity.
  - discriminate.
  - reflexivity.
  - reflexivity.
  - reflexivity.
Defined.

(** C4, as the claim has it, fails: [key] was never set on
    [default_store], yet after [set(section, 'Key', v)] a [get] of
    [key] observes [v]. *)
Lemma option_names_not_case_sensitive :
  ~ (forall (section v : string) (self self' : NipypeConfig),
       ConfigStore.has_option section "key" self = (Ret false, self) ->
       ConfigStore.set section "Key" (PStr v) self = (Ret tt, self') ->
       fst (ConfigStore.get section "key" PNone self') <> Ret (PStr v)).
Proof.
  intros H.
  apply (H "execution" "v" default_store _ eq_refl eq_refl).
  reflexivity.
Qed.

(** [get] in one piece: the substitution, then the guarded read. *)
Lemma get_unfold section option default self :
  ConfigStore.get section option default self
  = let self1 := snd (ConfigStore.substitute option self) in
    if has_option (_config self) section (resolve option)
    then match ConfigParser.get (_config self) section (resolve option) with
         | Raise e => (Raise e, self1)
         | Ret v => (Ret (PStr v), self1)
         end
    else (Ret default, self1).
Proof.
  unfold ConfigStore.get, ConfigStore.substitute, resolve, bind.
  destruct (deprecation CONFIG_DEPRECATIONS option) as [[new version] |];
    cbv beta iota zeta;
    unfold ConfigStore._config_has_option, ConfigStore._config_get, warn, ret;
    cbn [_config fst snd];
    destruct (has_option (_config self) section _); try reflexivity;
    now destruct (ConfigParser.get (_config self) section _).
Qed.

(** C6, as the code has it.  After the substitution of a deprecated
    name, [get] returns the caller's default, whatever it is, when the
    option does not exist; when it exists under a section name that is
    not empty, it has a raw value, and [get] returns that string
    whenever it holds no percent sign.  Neither case raises, and the
    store changes by the deprecation warning only. *)
Theorem get_default_or_stored (section option : string) (default : pyval)
    (self : NipypeConfig) :
  (has_option (_config self) section (resolve option) = false ->
   ConfigStore.get section option default self
   = (Ret default, snd (ConfigStore.substitute option self)))
  /\ (has_option (_config self) section (resolve option) = true ->
      section <> "" ->
      exists v,
        lookup (_config self) section (resolve option) = Some v
        /\ (has_percent v = false ->
            ConfigStore.get section option default self
            = (Ret (PStr v), snd (ConfigStore.substitute option self)))).
Proof.
  split.
  - intros Habs. rewrite get_unfold. cbv zeta. now rewrite Habs.
  - intros Hpres Hne.
    destruct (has_option_lookup _ _ _ Hne Hpres) as [v Hl].
    exists v. split; [exact Hl |]. intros Hv.
    rewrite get_unfold. cbv zeta. rewrite Hpres.
    now rewrite (get_lookup_plain _ _ _ _ Hl Hv).
Qed.

Lemma get_default_or_stored_witness :
  ConfigStore.get "execution" "nothing_here" (PInt 7) default_store
  = (Ret (PInt 7), default_store)
  /\ exists v,
       lookup (_config default_store) "logging" "utils_level" = Some v
       /\ (has_percent v = false ->
           ConfigStore.get "logging" "filemanip_level" PNone default_store
           = (Ret (PStr v),
              snd (ConfigStore.substitute "filemanip_level" default_store))).
Proof.
  split.
  - apply (proj1 (get_default_or_stored "execution" "nothing_here" (PInt 7)
                    default_store)).
    reflexivity.
  - apply (proj2 (get_default_or_stored "logging" "filemanip_level" PNone
                    default_store)).
    + reflexivity.
    + discriminate.
Defined.

(** C6, as the claim has it, fails on [interpolating_store]: the
    stored string refers to a key that does not exist and [get]
    raises while expanding it. *)
Lemma get_raises_on_interpolation :
  ~ (forall (section option : string) (default : pyval)
            (self : NipypeConfig),
       raises (fst (ConfigStore.get section option default self)) = false).
Proof.
  intros H.
  specialize (H "execution" "crashdump_dir" PNone interpolating_store).
  vm_compute in H. discriminate H.
Qed.

End GetSet.

(** ** The migration pass of [__init__] *)

Section Migration.
Import ConfigStore.


Lemma deprecation_cases option new version :
  deprecation CONFIG_DEPRECATIONS option = Some (new, version) ->
  (option = "profile_runtime" /\ new = "resource_monitor")
  \/ (option = "filemanip_level" /\ new = "utils_level").
Proof.
  unfold deprecation, CONFIG_DEPRECATIONS.
  destruct (String.eqb_spec "profile_runtime" option) as [<- |].
  - intros [= <- <-]. now left.
  - destruct (String.eqb_spec "filemanip_level" option) as [<- |];
      [| discriminate].
    intros [= <- <-]. now right.
Qed.






End Migration.

(** ** [set_default_config] *)

Section Defaults.
Import ConfigParser.

Lemma read_options_lookup items d k :
  overlay_options items d !! k = read_value k items (d !! k).
Proof.
  unfold overlay_options, read_value. revert d.
  induction items as [| [o v] items IH]; intros d; [reflexivity |].
  cbn [fold_left fst snd]. rewrite IH. f_equal.
  destruct (String.eqb_spec (optionxform o) k) as [-> | Hne].
  - apply lookup_insert_eq.
  - now apply lookup_insert_ne.
Qed.

Lemma read_value_miss k items acc :
  (forall kv, In kv items -> optionxform (fst kv) <> k) ->
  read_value k items acc = acc.
Proof.
  unfold read_value. revert acc.
  induction items as [| kv items IH]; intros acc Hmiss; [reflexivity |].
  cbn [fold_left].
  destruct (String.eqb_spec (optionxform (fst kv)) k) as [Heq | _].
  - now destruct (Hmiss kv (or_introl eq_refl)).
  - apply IH. intros kv' Hkv'. apply Hmiss. now right.
Qed.

(** Reading one named section overlays its lines on that section and
    touches no other. *)
Lemma read_section_stored cp sec items s o :
  sec <> default_section ->
  stored (overlay_section cp (sec, items)) s o
  = if String.eqb sec s then read_value o items (stored cp s o)
    else stored cp s o.
Proof.
  intros Hsec. unfold overlay_section, stored.
  destruct (String.eqb_spec sec default_section) as [| _]; [done |].
  destruct (String.eqb_spec sec s) as [<- | Hne].
  - destruct (_sections cp !! sec) as [cursect |] eqn:Hcur; cbn [_sections];
      rewrite lookup_insert_eq; cbn; now rewrite read_options_lookup.
  - destruct (_sections cp !! sec) as [cursect |]; cbn [_sections];
      now rewrite lookup_insert_ne.
Qed.

Lemma read_section_defaults cp sec items :
  sec <> default_section ->
  _defaults (overlay_section cp (sec, items)) = _defaults cp.
Proof.
  intros Hsec. unfold overlay_section.
  destruct (String.eqb_spec sec default_section) as [| _]; [done |].
  now destruct (_sections cp !! sec).
Qed.

Ltac template_lines H :=
  repeat (destruct H as [H | H];
          [injection H as <- <-; reflexivity |]);
  destruct H.

(** After the template was read, a line of the template is what the
    tree stores. *)
Lemma template_stored cp h c section option value :
  (exists items, In (section, items) (default_cfg h c)
                 /\ In (option, value) items) ->
  stored (overlay cp (default_cfg h c)) section option = Some value.
Proof.
  intros (items & Hsec & Hopt).
  unfold overlay, default_cfg in *. cbn [fold_left].
  rewrite !read_section_stored by discriminate.
  destruct Hsec as [Hsec | [Hsec | [Hsec | []]]];
    injection Hsec as <- <-; cbn [String.eqb Ascii.eqb Bool.eqb];
    template_lines Hopt.
Qed.

(** The keys of the template are in lower case already. *)
Lemma template_keys_lower h c section items kv :
  In (section, items) (default_cfg h c) ->
  In kv items ->
  optionxform (fst kv) = fst kv.
Proof.
  intros Hsec Hkv. unfold default_cfg in Hsec.
  destruct Hsec as [Hsec | [Hsec | [Hsec | []]]];
    injection Hsec as <- <-;
    repeat (destruct Hkv as [<- | Hkv]; [reflexivity |]);
    destruct Hkv.
Qed.

Lemma template_frame cp h c section option :
  (forall value,
      ~ exists items, In (section, items) (default_cfg h c)
                      /\ In (option, value) items) ->
  stored (overlay cp (default_cfg h c)) section option
  = stored cp section option.
Proof.
  intros Hout.
  assert (Hmiss : forall items, In (section, items) (default_cfg h c) ->
            forall acc, read_value option items acc = acc).
  { intros items Hsec acc. apply read_value_miss. intros [k v] Hkv.
    rewrite (template_keys_lower h c section items (k, v) Hsec Hkv).
    cbn [fst]. intros ->. apply (Hout v). eauto. }
  unfold overlay. unfold default_cfg at 1. cbn [fold_left].
  rewrite !read_section_stored by discriminate.
  assert (Hstep : forall sec items acc,
            In (sec, items) (default_cfg h c) ->
            (if String.eqb sec section
             then read_value option items acc else acc) = acc).
  { intros sec items acc Hin.
    destruct (String.eqb_spec sec section) as [-> | _];
      [now apply Hmiss | reflexivity]. }
  now rewrite !Hstep by (unfold default_cfg; cbn; auto).
Qed.

(** C10.  [set_default_config] reads the template over the tree as it
    is: it returns, every line of the template is then stored with its
    template value, every other section/option keeps what it held, and
    neither the default section, the cache, the warnings nor the probe
    counter change. *)
Theorem set_default_config_overlays (E : Env) (self : NipypeConfig) :
  let self' := snd (ConfigStore.set_default_config E self) in
  fst (ConfigStore.set_default_config E self) = Ret tt
  /\ (forall section option value,
        in_template E section option value ->
        stored (_config self') section option = Some value)
  /\ (forall section option,
        (forall value, ~ in_template E section option value) ->
        stored (_config self') section option
        = stored (_config self) section option)
  /\ _defaults (_config self') = _defaults (_config self)
  /\ _resource_monitor self' = _resource_monitor self
  /\ warnings self' = warnings self
  /\ psutil_imports self' = psutil_imports self.
Proof.
  cbv zeta. unfold ConfigStore.set_default_config, ConfigStore._config_readfp.
  rewrite read_template.
  cbn [fst snd _config _resource_monitor warnings psutil_imports
       ConfigStore.with_config].
  split; [reflexivity |].
  split; [intros section option value; apply template_stored |].
  split; [intros section option; apply template_frame |].
  split; [| auto].
  unfold overlay, default_cfg. cbn [fold_left].
  now rewrite !read_section_defaults by discriminate.
Qed.

Lemma set_default_config_overlays_witness :
  stored (_config (snd (ConfigStore.set_default_config
                          (plain_env (Some (Ret true))) overridden_store)))
    "execution" "resource_monitor"
  = Some "false".
Proof.
  apply (proj1 (proj2 (set_default_config_overlays
                         (plain_env (Some (Ret true))) overridden_store))).
  exists (snd (nth 1 (default_cfg "/home/user" "/work") ("", []))).
  split; cbn; auto 40.
Defined.

End Defaults.

(** ** The JSON side file *)

Section SideFile.
Import DataFile.

Lemma setitem_contains key value d :
  PyDict.contains key (PyDict.setitem key value d) = true.
Proof.
  induction d as [| [k v] d IH]; cbn.
  - now rewrite String.eqb_refl.
  - destruct (String.eqb k key) eqn:Hk; cbn; now rewrite Hk.
Qed.

Lemma setitem_getitem key value d :
  PyDict.getitem key (PyDict.setitem key value d) = Some value.
Proof.
  induction d as [| [k v] d IH]; cbn.
  - now rewrite String.eqb_refl.
  - destruct (String.eqb k key) eqn:Hk; cbn; now rewrite Hk.
Qed.

(** [d[key] = value] keeps the keys of a dictionary distinct. *)
Lemma setitem_keys key value d k :
  In k (map fst (PyDict.setitem key value d)) ->
  k = key \/ In k (map fst d).
Proof.
  induction d as [| [k0 v0] d IH]; cbn.
  - intros [<- | []]. now left.
  - destruct (String.eqb_spec k0 key) as [-> | Hne]; cbn.
    + intros [<- | Hin]; auto.
    + intros [<- | Hin]; [auto |]. destruct (IH Hin); auto.
Qed.

Lemma setitem_NoDup key value d :
  List.NoDup (map fst d) ->
  List.NoDup (map fst (PyDict.setitem key value d)).
Proof.
  induction d as [| [k0 v0] d IH]; cbn; intros Hnd.
  - apply List.NoDup_cons; [intros [] | apply List.NoDup_nil].
  - apply List.NoDup_cons_iff in Hnd as [Hnotin Hnd].
    destruct (String.eqb_spec k0 key) as [-> | Hne]; cbn.
    + now apply List.NoDup_cons.
    + apply List.NoDup_cons; [| now apply IH].
      intros Hin. apply setitem_keys in Hin as [-> | Hin]; auto.
Qed.

(** Other keys keep their values across [d[key] = value]. *)
Lemma setitem_getitem_other key key' value d :
  key' <> key ->
  PyDict.getitem key' (PyDict.setitem key value d) = PyDict.getitem key' d.
Proof.
  intros Hne. induction d as [| [k v] d IH]; cbn.
  - destruct (String.eqb_spec key key'); [congruence | reflexivity].
  - destruct (String.eqb_spec k key) as [-> | Hk]; cbn.
    + destruct (String.eqb_spec key key'); [congruence | reflexivity].
    + now rewrite IH.
Qed.

End SideFile.

(** ** What every method keeps of the parser *)

Section Keeps.
Import ConfigStore.

Variable P : ConfigParser.t -> Prop.
Hypothesis P_stable : stable P.

Lemma keeps_ret {A} (a : A) : keeps P (ret a).
Proof. now intros self. Qed.

Lemma keeps_raise {A} (e : exn) : keeps P (@raise A e).
Proof. now intros self. Qed.

Lemma keeps_lift {A} (r : result A) : keeps P (lift r).
Proof. now intros self. Qed.

Lemma keeps_warn msg : keeps P (warn msg).
Proof. now intros self. Qed.

Lemma keeps_bind {A B} (m : M A) (k : A -> M B) :
  keeps P m -> (forall a, keeps P (k a)) -> keeps P (bind m k).
Proof.
  intros Hm Hk self HP. unfold bind.
  specialize (Hm self HP). destruct (m self) as [[e | a] self1]; cbn in *.
  - exact Hm.
  - now apply Hk.
Qed.

Lemma keeps_for_each {A} (l : list A) (body : A -> M unit) :
  (forall x, keeps P (body x)) -> keeps P (for_each l body).
Proof.
  intros Hbody. induction l as [| x l IH]; cbn [for_each].
  - apply keeps_ret.
  - apply keeps_bind; auto.
Qed.

Lemma keeps_try_finally {A} (body : M A) (final : M unit) :
  keeps P body -> keeps P final -> keeps P (try_finally body final).
Proof.
  intros Hb Hf self HP. unfold try_finally.
  specialize (Hb self HP). destruct (body self) as [r self1]. cbn in Hb.
  specialize (Hf self1 Hb). now destruct (final self1) as [[e | []] self2].
Qed.

Lemma keeps_except_ImportError (body : M unit) :
  keeps P body -> keeps P (except_ImportError body).
Proof.
  intros Hb self HP. unfold except_ImportError.
  specialize (Hb self HP).
  now destruct (body self) as [[[] | []] self1].
Qed.

Lemma keeps_set_resource_monitor v : keeps P (set_resource_monitor v).
Proof. now intros self. Qed.

Lemma keeps_get_resource_monitor : keeps P get_resource_monitor.
Proof. now intros self. Qed.

Lemma keeps_config_has_option section option :
  keeps P (_config_has_option section option).
Proof. now intros self. Qed.

Lemma keeps_config_get section option : keeps P (_config_get section option).
Proof. now intros self. Qed.

Lemma keeps_config_set section option value :
  keeps P (_config_set section option value).
Proof.
  intros self HP. unfold _config_set.
  destruct (ConfigParser.set (_config self) section option (as_str value))
    as [e | cp'] eqn:Hset; [exact HP |].
  exact (proj1 P_stable _ _ _ _ _ HP Hset).
Qed.

Lemma stable_read cp source : P cp -> P (ConfigParser.overlay cp source).
Proof.
  unfold ConfigParser.overlay. revert cp.
  induction source as [| sec source IH]; intros cp HP; [exact HP |].
  cbn [fold_left]. apply IH. now apply (proj2 P_stable).
Qed.

Lemma keeps_config_readfp source : keeps P (_config_readfp source).
Proof.
  intros self HP. unfold _config_readfp.
  destruct (read_partial (_config self) source) as [source' Hpart].
  destruct (ConfigParser._read (_config self) source) as [r cp].
  cbn in *. subst cp. now apply stable_read.
Qed.

Lemma keeps_import_psutil E : keeps P (import_psutil E).
Proof. intros self HP. unfold import_psutil. now destruct (psutil E). Qed.

Lemma keeps_substitute option : keeps P (substitute option).
Proof.
  unfold substitute.
  destruct (deprecation CONFIG_DEPRECATIONS option) as [[new version] |].
  - apply keeps_bind; [apply keeps_warn | intros _; apply keeps_ret].
  - apply keeps_ret.
Qed.

Lemma keeps_get section option default : keeps P (get section option default).
Proof.
  unfold get. apply keeps_bind; [apply keeps_substitute |]. intros o.
  apply keeps_bind; [apply keeps_config_has_option |]. intros [].
  - apply keeps_bind; [apply keeps_config_get | intros v; apply keeps_ret].
  - apply keeps_ret.
Qed.

Lemma keeps_set section option value : keeps P (set section option value).
Proof.
  unfold set. apply keeps_bind; [apply keeps_substitute |]. intros o.
  apply keeps_config_set.
Qed.

Lemma keeps_enable_debug_mode : keeps P enable_debug_mode.
Proof.
  unfold enable_debug_mode.
  repeat (apply keeps_bind; [apply keeps_config_set | intros _]).
  apply keeps_config_set.
Qed.

Lemma keeps_enable_provenance : keeps P enable_provenance.
Proof.
  unfold enable_provenance.
  apply keeps_bind; [apply keeps_config_set | intros _].
  apply keeps_config_set.
Qed.

Lemma keeps_update_config py_str config_dict :
  keeps P (update_config py_str config_dict).
Proof.
  unfold update_config. apply keeps_for_each. intros section.
  destruct (dict_get section config_dict) as [items |]; [| apply keeps_ret].
  apply keeps_for_each. intros kv. unfold update_item.
  destruct (negb _); [apply keeps_config_set | apply keeps_ret].
Qed.

Lemma keeps_setter E value : keeps P (resource_monitor_setter E value).
Proof.
  unfold resource_monitor_setter.
  apply keeps_bind; [apply keeps_lift |]. intros [| [] | z | s | s];
    try apply keeps_ret; try apply keeps_set_resource_monitor.
  apply keeps_bind; [apply keeps_get_resource_monitor |]. intros rm.
  destruct (falsy rm); [| apply keeps_ret].
  apply keeps_bind; [apply keeps_set_resource_monitor | intros _].
  apply keeps_try_finally.
  - apply keeps_except_ImportError.
    apply keeps_bind; [apply keeps_import_psutil |]. intros version_ok.
    apply keeps_bind; [apply keeps_lift |]. intros b.
    apply keeps_set_resource_monitor.
  - apply keeps_bind; [apply keeps_get_resource_monitor |]. intros rm'.
    apply keeps_bind; [| intros _; apply keeps_config_set].
    destruct (falsy rm'); [apply keeps_warn | apply keeps_ret].
Qed.

Lemma keeps_getter E : keeps P (resource_monitor E).
Proof.
  unfold resource_monitor.
  apply keeps_bind; [apply keeps_get_resource_monitor |]. intros [b |].
  - apply keeps_ret.
  - apply keeps_bind; [apply keeps_config_get |]. intros v.
    apply keeps_bind; [apply keeps_setter | intros _].
    apply keeps_bind; [apply keeps_get_resource_monitor |]. intros rm.
    apply keeps_ret.
Qed.

Lemma keeps_migrate options : keeps P (migrate options).
Proof.
  unfold migrate. apply keeps_for_each. intros option.
  apply keeps_for_each. intros section. unfold migrate_body, has_option.
  apply keeps_bind; [apply keeps_config_has_option |]. intros [];
    [| apply keeps_ret].
  destruct (deprecation CONFIG_DEPRECATIONS option) as [[new version] |];
    [| apply keeps_raise].
  apply keeps_bind; [apply keeps_config_has_option |]. intros [];
    [apply keeps_ret |].
  apply keeps_bind; [apply keeps_get | intros v; apply keeps_set].
Qed.

Lemma keeps_init E : P ConfigParser.empty -> P (_config (snd (__init__ E))).
Proof.
  intros Hempty. unfold __init__.
  assert (Hfresh : P (_config fresh)) by exact Hempty.
  revert Hfresh. generalize fresh. change (keeps P
    (_config_readfp (default_cfg (homedir E) (getcwd E)) ;;;
     set_resource_monitor None ;;;
     (if config_dir_exists E
      then _config_read [config_file E; cwd_nipype_cfg E]
      else ret tt) ;;;
     migrate (map fst CONFIG_DEPRECATIONS))%py).
  apply keeps_bind; [apply keeps_config_readfp | intros _].
  apply keeps_bind; [apply keeps_set_resource_monitor | intros _].
  apply keeps_bind; [| intros _; apply keeps_migrate].
  destruct (config_dir_exists E); [| apply keeps_ret].
  unfold _config_read. apply keeps_for_each. intros [source |].
  - apply keeps_config_readfp.
  - apply keeps_ret.
Qed.

End Keeps.

(** ** Three properties that the store keeps for good *)

Section Stable.
Import PyStr ConfigParser.

Lemma lower_ascii_idem c : lower_ascii (lower_ascii c) = lower_ascii c.
Proof. destruct c as [[] [] [] [] [] [] [] []]; reflexivity. Qed.

Lemma lower_idem s : lower (lower s) = lower s.
Proof.
  induction s as [| c s IH]; [reflexivity |].
  cbn [lower]. now rewrite lower_ascii_idem, IH.
Qed.

Lemma py_in_insert_mono (k k' v : string) (d : gmap string string) :
  py_in k d = true -> py_in k (<[k' := v]> d) = true.
Proof.
  unfold py_in. destruct (decide (k' = k)) as [-> | Hne].
  - now rewrite lookup_insert_eq.
  - now rewrite lookup_insert_ne.
Qed.

Lemma py_in_read_options_mono k items (d : gmap string string) :
  py_in k d = true -> py_in k (overlay_options items d) = true.
Proof.
  unfold overlay_options. revert d.
  induction items as [| kv items IH]; intros d Hd; [exact Hd |].
  cbn [fold_left]. apply IH. now apply py_in_insert_mono.
Qed.

Lemma stable_wf : stable wf.
Proof.
  split.
  - intros cp section option v cp' Hwf Hset. exact (wf_set _ _ _ _ _ Hwf Hset).
  - intros cp sec. apply wf_read_section.
Qed.

Lemma stable_has_option s o :
  stable (fun cp => has_option cp s o = true).
Proof.
  split.
  - intros cp section option [v |] cp' Hhas Hset; [| discriminate].
    apply set_inv in Hset as [[Hdef ->] | [Hdef (d & Hd & ->)]];
      unfold has_option in *; cbn [_defaults _sections].
    + destruct (is_default s).
      * now apply py_in_insert_mono.
      * destruct (_sections cp !! s) as [ds |]; [| discriminate].
        apply orb_true_iff in Hhas as [H | H].
        -- now rewrite H.
        -- rewrite (py_in_insert_mono _ _ _ _ H). apply orb_true_r.
    + destruct (is_default s); [exact Hhas |].
      destruct (decide (section = s)) as [-> | Hne].
      * rewrite lookup_insert_eq. rewrite Hd in Hhas.
        apply orb_true_iff in Hhas as [H | H].
        -- now rewrite (py_in_insert_mono _ _ _ _ H).
        -- rewrite H. apply orb_true_r.
      * now rewrite lookup_insert_ne.
  - intros cp [sectname items] Hhas. unfold has_option, overlay_section in *.
    destruct (_sections cp !! sectname) as [cursect |] eqn:Hcur;
      [| destruct (String.eqb sectname default_section)];
      cbn [_defaults _sections]; destruct (is_default s); try exact Hhas.
    + destruct (decide (sectname = s)) as [-> | Hne].
      * rewrite lookup_insert_eq. rewrite Hcur in Hhas.
        apply orb_true_iff in Hhas as [H | H].
        -- now rewrite (py_in_read_options_mono _ _ _ H).
        -- rewrite H. apply orb_true_r.
      * now rewrite lookup_insert_ne.
    + now apply py_in_read_options_mono.
    + destruct (_sections cp !! s) as [ds |]; [| discriminate].
      apply orb_true_iff in Hhas as [H | H].
      * now rewrite H.
      * rewrite (py_in_read_options_mono _ _ _ H). apply orb_true_r.
    + destruct (decide (sectname = s)) as [-> | Hne].
      * now rewrite Hcur in Hhas.
      * now rewrite lookup_insert_ne.
Qed.

Lemma lower_keys_insert (k v : string) (d : gmap string string) :
  (forall k' v', d !! k' = Some v' -> lower k' = k') ->
  forall k' v', <[optionxform k := v]> d !! k' = Some v' -> lower k' = k'.
Proof.
  intros Hd k' v'. destruct (decide (optionxform k = k')) as [<- | Hne].
  - intros _. apply lower_idem.
  - rewrite lookup_insert_ne by done. apply Hd.
Qed.

Lemma lower_keys_read_options items (d : gmap string string) :
  (forall k' v', d !! k' = Some v' -> lower k' = k') ->
  forall k' v', overlay_options items d !! k' = Some v' -> lower k' = k'.
Proof.
  unfold overlay_options. revert d.
  induction items as [| kv items IH]; intros d Hd; [exact Hd |].
  cbn [fold_left]. apply IH. now apply lower_keys_insert.
Qed.

Lemma stable_lower_keys : stable lower_keys.
Proof.
  split.
  - intros cp section option [v |] cp' [Hdefs Hsecs] Hset; [| discriminate].
    apply set_inv in Hset as [[_ ->] | [_ (d & Hd & ->)]];
      split; cbn [_defaults _sections]; auto.
    + now apply lower_keys_insert.
    + intros s ds k' v'. destruct (decide (section = s)) as [-> | Hne].
      * rewrite lookup_insert_eq. intros [= <-].
        apply lower_keys_insert. intros k1 v1. now apply (Hsecs s d).
      * rewrite lookup_insert_ne by done. apply Hsecs.
  - intros cp [sectname items] [Hdefs Hsecs]. unfold overlay_section.
    assert (Hins : forall cursect,
              (forall k v, cursect !! k = Some v -> lower k = k) ->
              forall s ds k v,
                <[sectname := overlay_options items cursect]> (_sections cp) !! s
                = Some ds ->
                ds !! k = Some v -> lower k = k).
    { intros cursect Hcur s ds k v.
      destruct (decide (sectname = s)) as [-> | Hne].
      - rewrite lookup_insert_eq. intros [= <-].
        now apply lower_keys_read_options.
      - rewrite lookup_insert_ne by done. apply Hsecs. }
    destruct (_sections cp !! sectname) as [cursect |] eqn:Hcur;
      [| destruct (String.eqb sectname default_section)];
      split; cbn [_defaults _sections]; auto.
    + apply Hins. intros k v. now apply (Hsecs sectname).
    + now apply lower_keys_read_options.
    + apply Hins. intros k v. now rewrite lookup_empty.
Qed.

End Stable.

(** ** Invariants of a constructed store *)

Section Invariants.
Import ConfigStore.

(** All the methods that write to the parser keep a stable property. *)
Lemma methods_keep (P : ConfigParser.t -> Prop) (E : Env)
    (py_str : pyval -> string) :
  stable P ->
  (forall section option value, keeps P (set section option value))
  /\ (forall section option default, keeps P (get section option default))
  /\ keeps P (set_default_config E)
  /\ keeps P enable_debug_mode
  /\ keeps P enable_provenance
  /\ (forall log_dir, keeps P (set_log_dir log_dir))
  /\ (forall config_dict, keeps P (update_config py_str config_dict))
  /\ (forall value, keeps P (resource_monitor_setter E value))
  /\ keeps P (resource_monitor E)
  /\ keeps P (enable_resource_monitor E).
Proof.
  intros HP. repeat split; intros.
  - now apply keeps_set.
  - now apply keeps_get.
  - now apply keeps_config_readfp.
  - now apply keeps_enable_debug_mode.
  - now apply keeps_enable_provenance.
  - now apply keeps_config_set.
  - now apply keeps_update_config.
  - now apply keeps_setter.
  - now apply keeps_getter.
  - now apply keeps_setter.
Qed.

(** X1.  An option that is once in the tree is never removed: whatever
    [has_option] sees stays visible to it across every writing method,
    whether the method returns or raises. *)
Theorem options_are_never_removed (E : Env) (py_str : pyval -> string)
    (s o : string) :
  let present := fun cp => ConfigParser.has_option cp s o = true in
  (forall section option value, keeps present (set section option value))
  /\ (forall section option default, keeps present (get section option default))
  /\ keeps present (set_default_config E)
  /\ keeps present enable_debug_mode
  /\ keeps present enable_provenance
  /\ (forall log_dir, keeps present (set_log_dir log_dir))
  /\ (forall config_dict, keeps present (update_config py_str config_dict))
  /\ (forall value, keeps present (resource_monitor_setter E value))
  /\ keeps present (resource_monitor E)
  /\ keeps present (enable_resource_monitor E).
Proof. apply methods_keep, stable_has_option. Qed.

(** X2.  Every option name filed in the tree of a constructed store is
    in lower case, whatever the configuration files spell, and every
    writing method keeps it so. *)
Theorem option_names_are_lower_case (E : Env) (py_str : pyval -> string) :
  lower_keys (_config (snd (__init__ E)))
  /\ (forall section option value, keeps lower_keys (set section option value))
  /\ keeps lower_keys (set_default_config E)
  /\ keeps lower_keys enable_debug_mode
  /\ keeps lower_keys enable_provenance
  /\ (forall log_dir, keeps lower_keys (set_log_dir log_dir))
  /\ (forall config_dict, keeps lower_keys (update_config py_str config_dict))
  /\ (forall value, keeps lower_keys (resource_monitor_setter E value))
  /\ keeps lower_keys (resource_monitor E).
Proof.
  destruct (methods_keep lower_keys E py_str stable_lower_keys)
    as (H1 & H2 & H3 & H4 & H5 & H6 & H7 & H8 & H9 & H10).
  split; [| exact (conj H1 (conj H3 (conj H4 (conj H5 (conj H6
                     (conj H7 (conj H8 H9)))))))].
  apply keeps_init; [apply stable_lower_keys |].
  split; [intros k v H | intros section d k v H];
    cbn in H; now rewrite lookup_empty in H.
Qed.

(** X3.  The default section is never filed among the named sections of
    a constructed store, and no writing method ever files it there. *)
Theorem default_section_stays_apart (E : Env) (py_str : pyval -> string) :
  ConfigParser.wf (_config (snd (__init__ E)))
  /\ (forall section option value,
        keeps ConfigParser.wf (set section option value))
  /\ keeps ConfigParser.wf (set_default_config E)
  /\ keeps ConfigParser.wf enable_debug_mode
  /\ keeps ConfigParser.wf enable_provenance
  /\ (forall log_dir, keeps ConfigParser.wf (set_log_dir log_dir))
  /\ (forall config_dict,
        keeps ConfigParser.wf (update_config py_str config_dict))
  /\ (forall value, keeps ConfigParser.wf (resource_monitor_setter E value))
  /\ keeps ConfigParser.wf (resource_monitor E).
Proof.
  destruct (methods_keep ConfigParser.wf E py_str stable_wf)
    as (H1 & H2 & H3 & H4 & H5 & H6 & H7 & H8 & H9 & H10).
  split; [| exact (conj H1 (conj H3 (conj H4 (conj H5 (conj H6
                     (conj H7 (conj H8 H9)))))))].
  apply keeps_init; [apply stable_wf | apply wf_empty].
Qed.

End Invariants.

(** ** The fixed-value setters *)

Section FixedSetters.
Import PyStr ConfigParser ConfigStore.

(** A write of a string without a percent sign into a named section
    that exists. *)
Lemma config_set_named section option v d self :
  is_default section = false ->
  _sections (_config self) !! section = Some d ->
  has_percent v = false ->
  _config_set section option (PStr v) self
  = (Ret tt,
     with_config (mk (_defaults (_config self))
                    (<[section := <[optionxform option := v]> d]>
                       (_sections (_config self)))) self).
Proof.
  intros Hdef Hd Hv. unfold _config_set, ConfigParser.set. cbn [as_str].
  rewrite (before_set_plain _ Hv).
  destruct (String.eqb v ""); cbn [rbind]; now rewrite Hdef, Hd.
Qed.

(** A write into a named section that does not exist. *)
Lemma config_set_no_section section option v self :
  is_default section = false ->
  _sections (_config self) !! section = None ->
  has_percent v = false ->
  _config_set section option (PStr v) self
  = (Raise (NoSectionError section), self).
Proof.
  intros Hdef Hd Hv. unfold _config_set, ConfigParser.set. cbn [as_str].
  rewrite (before_set_plain _ Hv).
  destruct (String.eqb v ""); cbn [rbind]; now rewrite Hdef, Hd.
Qed.

(** A write of the value that is stored already changes nothing. *)
Lemma config_set_same section option v d self :
  is_default section = false ->
  _sections (_config self) !! section = Some d ->
  d !! optionxform option = Some v ->
  has_percent v = false ->
  _config_set section option (PStr v) self = (Ret tt, self).
Proof.
  intros Hdef Hd Hk Hv. rewrite (config_set_named _ _ _ d) by assumption.
  rewrite (insert_id d _ _ Hk), (insert_id _ _ _ Hd).
  now destruct self as [[defaults sections] rm ws n].
Qed.

Ltac set_same :=
  erewrite config_set_same;
  [ cbv beta iota
  | reflexivity
  | cbn [_config _sections with_config]; now simplify_map_eq
  | now simplify_map_eq
  | reflexivity ].

Ltac set_named d :=
  erewrite (config_set_named _ _ _ d);
  [ cbv beta iota
  | reflexivity
  | cbn [_config _sections with_config];
    rewrite ?lookup_insert_eq, ?lookup_insert_ne by discriminate;
    eassumption || reflexivity
  | reflexivity ].

(** X4.  On a store that has the sections [execution] and [logging],
    [enable_debug_mode] returns, the five options hold their fixed
    values, every other option keeps its value, nothing outside the
    tree changes, and a second call changes nothing any more. *)
Theorem enable_debug_mode_effect (self : NipypeConfig)
    (de dl : gmap string string) :
  _sections (_config self) !! "execution" = Some de ->
  _sections (_config self) !! "logging" = Some dl ->
  exists self',
    enable_debug_mode self = (Ret tt, self')
    /\ stored (_config self') "execution" "stop_on_first_crash" = Some "true"
    /\ stored (_config self') "execution" "remove_unnecessary_outputs"
       = Some "false"
    /\ stored (_config self') "execution" "keep_inputs" = Some "true"
    /\ stored (_config self') "logging" "workflow_level" = Some "DEBUG"
    /\ stored (_config self') "logging" "interface_level" = Some "DEBUG"
    /\ (forall s o,
          ~ In (s, o) [ ("execution", "stop_on_first_crash");
                        ("execution", "remove_unnecessary_outputs");
                        ("execution", "keep_inputs");
                        ("logging", "workflow_level");
                        ("logging", "interface_level") ] ->
          stored (_config self') s o = stored (_config self) s o)
    /\ _defaults (_config self') = _defaults (_config self)
    /\ only_config self self'
    /\ enable_debug_mode self' = (Ret tt, self').
Proof.
  intros He Hl. eexists. split.
  { unfold enable_debug_mode, bind.
    set_named de. set_named (<[optionxform "stop_on_first_crash" := "true"]> de).
    set_named (<[optionxform "remove_unnecessary_outputs" := "false"]>
                 (<[optionxform "stop_on_first_crash" := "true"]> de)).
    set_named dl. set_named (<[optionxform "workflow_level" := "DEBUG"]> dl).
    reflexivity. }
  cbn [_config _sections _defaults with_config _resource_monitor warnings
       psutil_imports].
  change (optionxform "stop_on_first_crash") with "stop_on_first_crash".
  change (optionxform "remove_unnecessary_outputs")
    with "remove_unnecessary_outputs".
  change (optionxform "keep_inputs") with "keep_inputs".
  change (optionxform "workflow_level") with "workflow_level".
  change (optionxform "interface_level") with "interface_level".
  unfold stored. cbn [_sections].
  repeat split.
  - now simplify_map_eq.
  - now simplify_map_eq.
  - now simplify_map_eq.
  - now simplify_map_eq.
  - now simplify_map_eq.
  - intros s o Hout.
    destruct (decide (s = "logging")) as [-> | Hs1];
      [| destruct (decide (s = "execution")) as [-> | Hs2]];
      simplify_map_eq; [| | reflexivity].
    + rewrite !lookup_insert_ne; [reflexivity | |];
        intros <-; apply Hout; cbn; auto 10.
    + rewrite !lookup_insert_ne; [reflexivity | | |];
        intros <-; apply Hout; cbn; auto 10.
  - unfold enable_debug_mode, bind. do 5 set_same. reflexivity.
Qed.

Lemma enable_debug_mode_effect_witness :
  exists self',
    enable_debug_mode default_store = (Ret tt, self')
    /\ stored (_config self') "logging" "workflow_level" = Some "DEBUG"
    /\ enable_debug_mode self' = (Ret tt, self').
Proof.
  edestruct (enable_debug_mode_effect default_store)
    as (self' & Hrun & _ & _ & _ & Hw & _ & _ & _ & _ & Hidem);
    [reflexivity | reflexivity |].
  exists self'. auto.
Defined.

(** What a named section stores under the folded name of an option is
    what the accessors return for it. *)
Lemma stored_parser_get cp section option v :
  is_default section = false ->
  stored cp section (optionxform option) = Some v ->
  has_percent v = false ->
  ConfigParser.get cp section option = Ret v
  /\ ConfigParser.has_option cp section option = true.
Proof.
  intros Hdef Hst Hv. unfold stored in Hst.
  destruct (_sections cp !! section) as [d |] eqn:Hd; [| discriminate].
  cbn in Hst. split.
  - apply get_lookup_plain; [| exact Hv].
    unfold ConfigParser.lookup, _unify_values. rewrite Hd. unfold chain. now rewrite Hst.
  - unfold ConfigParser.has_option. rewrite Hdef, Hd. unfold py_in. now rewrite Hst.
Qed.

Lemma stored_get section option v default self :
  deprecation CONFIG_DEPRECATIONS option = None ->
  is_default section = false ->
  stored (_config self) section (optionxform option) = Some v ->
  has_percent v = false ->
  get section option default self = (Ret (PStr v), self).
Proof.
  intros Hdep Hdef Hst Hv.
  destruct (stored_parser_get _ _ _ _ Hdef Hst Hv) as [Hget Hhas].
  rewrite get_unfold. unfold resolve. rewrite Hdep. cbv zeta.
  rewrite Hhas, Hget. now rewrite (substitute_plain _ _ Hdep).
Qed.

Lemma getboolean_stored section option v b self :
  is_default section = false ->
  stored (_config self) section (optionxform option) = Some v ->
  has_percent v = false ->
  _convert_to_boolean v = Ret b ->
  getboolean section option self = (Ret b, self).
Proof.
  intros Hdef Hst Hv Hb.
  destruct (stored_parser_get _ _ _ _ Hdef Hst Hv) as [Hget _].
  unfold getboolean, _config_getboolean, ConfigParser.getboolean.
  rewrite Hget. cbn [rbind]. now rewrite Hb.
Qed.

(** X5.  On a store that has the section [execution],
    [enable_provenance] returns; afterwards [getboolean] reads
    [write_provenance] as true and [get] reads [hash_method] as
    [content], every other option keeps its value, nothing outside the
    tree changes, and a second call changes nothing any more. *)
Theorem enable_provenance_effect (self : NipypeConfig)
    (de : gmap string string) :
  _sections (_config self) !! "execution" = Some de ->
  exists self',
    enable_provenance self = (Ret tt, self')
    /\ getboolean "execution" "write_provenance" self' = (Ret true, self')
    /\ (forall default,
          get "execution" "hash_method" default self'
          = (Ret (PStr "content"), self'))
    /\ (forall s o,
          ~ In (s, o) [ ("execution", "write_provenance");
                        ("execution", "hash_method") ] ->
          stored (_config self') s o = stored (_config self) s o)
    /\ _defaults (_config self') = _defaults (_config self)
    /\ only_config self self'
    /\ enable_provenance self' = (Ret tt, self').
Proof.
  intros He. eexists. split.
  { unfold enable_provenance, bind.
    set_named de. set_named (<[optionxform "write_provenance" := "true"]> de).
    reflexivity. }
  change (optionxform "write_provenance") with "write_provenance".
  change (optionxform "hash_method") with "hash_method".
  split; [| split; [| split; [| split; [| split]]]].
  - apply (getboolean_stored _ _ "true"); try reflexivity.
    unfold stored. cbn. now simplify_map_eq.
  - intros default. apply stored_get; try reflexivity.
    unfold stored. cbn. now simplify_map_eq.
  - intros s o Hout. unfold stored. cbn.
    destruct (decide (s = "execution")) as [-> | Hs]; simplify_map_eq;
      [| reflexivity].
    rewrite !lookup_insert_ne; [reflexivity | |];
      intros <-; apply Hout; cbn; auto.
  - reflexivity.
  - now repeat split.
  - unfold enable_provenance, bind. do 2 set_same. reflexivity.
Qed.

Lemma enable_provenance_effect_witness :
  exists self',
    enable_provenance default_store = (Ret tt, self')
    /\ getboolean "execution" "write_provenance" self' = (Ret true, self').
Proof.
  edestruct (enable_provenance_effect default_store)
    as (self' & Hrun & Hb & _); [reflexivity |].
  exists self'. auto.
Defined.

(** X6.  [set_log_dir] hands its argument to the parser as it is: a
    string without a percent sign is then what [get] returns for
    [logging.log_directory], with every other option as before; a value
    that is not a string (a boolean included) raises [TypeError], and a
    non-empty string that the interpolation syntax check refuses raises
    its error; in both failures the store is unchanged. *)
Theorem set_log_dir_effect (self : NipypeConfig) (dl : gmap string string) :
  _sections (_config self) !! "logging" = Some dl ->
  (forall v, has_percent v = false ->
     exists self',
       set_log_dir (PStr v) self = (Ret tt, self')
       /\ (forall default,
             get "logging" "log_directory" default self'
             = (Ret (PStr v), self'))
       /\ (forall s o, (s, o) <> ("logging", "log_directory") ->
                       stored (_config self') s o = stored (_config self) s o)
       /\ only_config self self')
  /\ (forall log_dir, as_str log_dir = None ->
        set_log_dir log_dir self
        = (Raise (TypeError "option values must be strings"), self))
  /\ (forall v e, v <> "" -> before_set v = Raise e ->
        set_log_dir (PStr v) self = (Raise e, self)).
Proof.
  intros Hl. split; [| split].
  - intros v Hv. eexists. split.
    { unfold set_log_dir.
      now rewrite (config_set_named "logging" "log_directory" v dl self
                     eq_refl Hl Hv). }
    change (optionxform "log_directory") with "log_directory".
    split; [| split].
    + intros default. apply stored_get; try reflexivity; [| exact Hv].
      unfold stored. cbn. now simplify_map_eq.
    + intros s o Hout. unfold stored. cbn.
      destruct (decide (s = "logging")) as [-> | Hs]; simplify_map_eq;
        [| reflexivity].
      rewrite lookup_insert_ne; [reflexivity |]. now intros <-.
    + now repeat split.
  - intros log_dir Hns. unfold set_log_dir, _config_set. now rewrite Hns.
  - intros v e Hne Hbs. unfold set_log_dir, _config_set, ConfigParser.set.
    cbn [as_str]. destruct (String.eqb_spec v ""); [done |].
    now rewrite Hbs.
Qed.

Lemma set_log_dir_effect_witness :
  (exists self',
      set_log_dir (PStr "/var/log/nipype") default_store = (Ret tt, self')
      /\ get "logging" "log_directory" PNone self'
         = (Ret (PStr "/var/log/nipype"), self'))
  /\ set_log_dir (PBool true) default_store
     = (Raise (TypeError "option values must be strings"), default_store)
  /\ set_log_dir (PStr "/data/50%") default_store
     = (Raise (ValueError "invalid interpolation syntax"), default_store).
Proof.
  edestruct (set_log_dir_effect default_store) as (Hok & Hty & Hval);
    [reflexivity |].
  split; [| split].
  - destruct (Hok "/var/log/nipype" eq_refl) as (self' & Hrun & Hget & _).
    exists self'. auto.
  - now apply Hty.
  - now apply Hval.
Defined.

End FixedSetters.

(** ** Deprecated names in [get] and [set] *)

Section Aliases.
Import PyStr ConfigParser.

Lemma resolve_idem option : resolve (resolve option) = resolve option.
Proof.
  unfold resolve at 2.
  destruct (deprecation CONFIG_DEPRECATIONS option) as [[new version] |] eqn:H;
    [| unfold resolve; now rewrite H].
  now destruct (deprecation_cases _ _ _ H) as [[-> ->] | [-> ->]].
Qed.

Lemma resolve_current option :
  deprecation CONFIG_DEPRECATIONS (resolve option) = None.
Proof.
  unfold resolve.
  destruct (deprecation CONFIG_DEPRECATIONS option) as [[new version] |] eqn:H;
    [| exact H].
  now destruct (deprecation_cases _ _ _ H) as [[-> ->] | [-> ->]].
Qed.

(** X7.  Reading an option under a deprecated name and under its
    replacement gives the same result on every store.  The read under
    the current name leaves the store as it is; the read under the
    deprecated name adds the deprecation warning and nothing else. *)
Theorem get_alias_same_value (section option : string) (default : pyval)
    (self : NipypeConfig) :
  fst (ConfigStore.get section option default self)
  = fst (ConfigStore.get section (resolve option) default self)
  /\ snd (ConfigStore.get section (resolve option) default self) = self
  /\ snd (ConfigStore.get section option default self)
     = match deprecation CONFIG_DEPRECATIONS option with
       | Some (new, version) =>
           add_warning (deprecation_msg option version new) self
       | None => self
       end.
Proof.
  rewrite !get_unfold. cbv zeta. rewrite resolve_idem.
  rewrite (substitute_plain _ _ (resolve_current option)). cbn [snd].
  assert (Hsub : snd (ConfigStore.substitute option self)
                 = match deprecation CONFIG_DEPRECATIONS option with
                   | Some (new, version) =>
                       add_warning (deprecation_msg option version new) self
                   | None => self
                   end).
  { unfold ConfigStore.substitute.
    now destruct (deprecation CONFIG_DEPRECATIONS option) as [[new version] |]. }
  rewrite <- Hsub.
  destruct (has_option (_config self) section (resolve option)).
  - now destruct (ConfigParser.get (_config self) section (resolve option)).
  - auto.
Qed.

(** [set] in one piece: the conversion of a boolean, the substitution,
    then the write. *)
Lemma set_unfold section option value self :
  ConfigStore.set section option value self
  = let self1 := snd (ConfigStore.substitute option self) in
    let value := match value with
                 | PBool b => PStr (str_of_bool b)
                 | _ => value
                 end in
    match ConfigParser.set (_config self) section (resolve option)
            (ConfigStore.as_str value) with
    | Raise e => (Raise e, self1)
    | Ret cp => (Ret tt, ConfigStore.with_config cp self1)
    end.
Proof.
  unfold ConfigStore.set, ConfigStore.substitute, resolve, bind.
  destruct (deprecation CONFIG_DEPRECATIONS option) as [[new version] |];
    cbv beta iota zeta; unfold ConfigStore._config_set, warn, ret;
    cbn [_config fst snd]; reflexivity.
Qed.

(** X8.  What [set] wrote is what [get] returns under the same name,
    deprecated or not: the string itself, or ['True'] / ['False'] for a
    boolean, provided the string holds no percent sign and the section
    name is not empty. *)
Theorem set_then_get (section option : string) (value default : pyval)
    (v : string) (self self' : NipypeConfig) :
  (value = PStr v \/ exists b, value = PBool b /\ v = str_of_bool b) ->
  has_percent v = false ->
  section <> "" ->
  wf (_config self) ->
  ConfigStore.set section option value self = (Ret tt, self') ->
  fst (ConfigStore.get section option default self') = Ret (PStr v)
  /\ _config (snd (ConfigStore.get section option default self'))
     = _config self'.
Proof.
  intros Hval Hv Hne Hwf. rewrite set_unfold. cbv zeta.
  assert (Hstr : ConfigStore.as_str
                   match value with
                   | PBool b => PStr (str_of_bool b)
                   | _ => value
                   end = Some v).
  { destruct Hval as [-> | (b & -> & ->)]; reflexivity. }
  rewrite Hstr.
  destruct (ConfigParser.set (_config self) section (resolve option) (Some v))
    as [e | cp'] eqn:Hset; [discriminate |].
  intros [= <-].
  destruct (set_lookup _ _ _ (resolve option) _ _ Hset Hne Hwf eq_refl)
    as [Hl Hh].
  rewrite get_unfold. cbv zeta.
  destruct (substitute_resolve option
              (ConfigStore.with_config cp'
                 (snd (ConfigStore.substitute option self)))) as [_ Hcfg].
  cbn [_config ConfigStore.with_config] in *.
  rewrite Hh, (get_lookup_plain _ _ _ _ Hl Hv). cbn [fst snd].
  now rewrite Hcfg.
Qed.

Lemma set_then_get_witness :
  fst (ConfigStore.get "execution" "profile_runtime" PNone
         (snd (ConfigStore.set "execution" "profile_runtime" (PBool true)
                 default_store)))
  = Ret (PStr "True").
Proof.
  refine (proj1 (set_then_get "execution" "profile_runtime" (PBool true) PNone
                   "True" default_store _ _ _ _ _ _)).
  - right. now exists true.
  - reflexivity.
  - discriminate.
  - reflexivity.
  - reflexivity.
Defined.

(** X9.  How [set] fails.  A value that is neither a boolean nor a
    string raises [TypeError]; a write into a named section that does
    not exist raises [NoSectionError].  Either way the tree, the cache
    and the probe counter stay as they were, and the only trace is the
    deprecation warning of a deprecated name. *)
Theorem set_failures (section option : string) (self : NipypeConfig) :
  (forall value,
      (forall b, value <> PBool b) -> (forall s, value <> PStr s) ->
      ConfigStore.set section option value self
      = (Raise (TypeError "option values must be strings"),
         snd (ConfigStore.substitute option self)))
  /\ (forall v,
        is_default section = false ->
        _sections (_config self) !! section = None ->
        has_percent v = false ->
        ConfigStore.set section option (PStr v) self
        = (Raise (NoSectionError section),
           snd (ConfigStore.substitute option self)))
  /\ _config (snd (ConfigStore.substitute option self)) = _config self
  /\ _resource_monitor (snd (ConfigStore.substitute option self))
     = _resource_monitor self
  /\ psutil_imports (snd (ConfigStore.substitute option self))
     = psutil_imports self.
Proof.
  split; [| split; [| split; [| split]]].
  - intros value Hb Hs. rewrite set_unfold. cbv zeta.
    destruct value as [| b | z | s | s]; try reflexivity.
    + now destruct (Hb b).
    + now destruct (Hs s).
  - intros v Hdef Hnone Hv. rewrite set_unfold. cbv zeta.
    cbn [ConfigStore.as_str]. unfold ConfigParser.set.
    rewrite (before_set_plain _ Hv).
    destruct (String.eqb v ""); cbn [rbind]; now rewrite Hdef, Hnone.
  - apply substitute_resolve.
  - unfold ConfigStore.substitute.
    now destruct (deprecation CONFIG_DEPRECATIONS option) as [[new version] |].
  - unfold ConfigStore.substitute.
    now destruct (deprecation CONFIG_DEPRECATIONS option) as [[new version] |].
Qed.

End Aliases.

(** ** The probe of the [resource_monitor] setter *)

Section Probe.
Import PyStr ConfigParser ConfigStore.

(** X10.  Assigning a value that coerces to [True] while [True] is not
    cached runs the probe exactly once and settles the cache on whether
    [psutil] is usable; [execution.resource_monitor] then holds the
    lower-cased outcome, the warning is emitted exactly when the outcome
    is [False], and every other option keeps its value.  The assignment
    returns, except that an error raised by the version comparison gets
    through after all this was done. *)
Theorem setter_true_probes (E : Env) (self : NipypeConfig) (value : pyval)
    (de : gmap string string) :
  coerce E value = Ret (PBool true) ->
  _resource_monitor self <> Some true ->
  _sections (_config self) !! "execution" = Some de ->
  let self' := snd (resource_monitor_setter E value self) in
  fst (resource_monitor_setter E value self) = probe_outcome E
  /\ _resource_monitor self' = Some (psutil_usable E)
  /\ stored (_config self') "execution" "resource_monitor"
     = Some (if psutil_usable E then "true" else "false")
  /\ (forall s o, (s, o) <> ("execution", "resource_monitor") ->
                  stored (_config self') s o = stored (_config self) s o)
  /\ warnings self'
     = (if psutil_usable E then warnings self
        else warnings self ++ [psutil_warning])%list
  /\ psutil_imports self' = S (psutil_imports self).
Proof.
  intros Hc Hrm He. cbv zeta.
  assert (Hfalsy : falsy (_resource_monitor self) = true).
  { destruct (_resource_monitor self) as [[] |]; [now destruct Hrm | |];
      reflexivity. }
  assert (Hframe : forall v s o,
            (s, o) <> ("execution", "resource_monitor") ->
            (<["execution" := <["resource_monitor" := v]> de]>
               (_sections (_config self)) !! s) ≫= (.!! o)
            = stored (_config self) s o).
  { intros v s o Hout. unfold stored.
    destruct (decide (s = "execution")) as [-> | Hs]; simplify_map_eq;
      [| reflexivity].
    rewrite lookup_insert_ne; [reflexivity |]. now intros <-. }
  unfold resource_monitor_setter, bind, lift. rewrite Hc.
  unfold get_resource_monitor. rewrite Hfalsy.
  unfold psutil_usable, probe_outcome, try_finally, except_ImportError,
    import_psutil, set_resource_monitor, warn, ret, _config_set,
    ConfigParser.set, stored.
  destruct (psutil E) as [[e | []] |];
    cbn [fst snd _config _resource_monitor warnings psutil_imports falsy
         str_of_cache as_str];
    try (destruct e);
    cbn; rewrite He; cbn;
    change (optionxform "resource_monitor") with "resource_monitor";
    (repeat split; [now simplify_map_eq | intros s o Hout; now apply Hframe]).
Qed.

Lemma setter_true_probes_witness :
  _resource_monitor
    (snd (resource_monitor_setter (plain_env (Some (Ret true))) (PStr "Yes")
            default_store))
  = Some true
  /\ warnings
       (snd (resource_monitor_setter (plain_env None) (PBool true)
               default_store))
     = [psutil_warning].
Proof.
  split.
  - edestruct (setter_true_probes (plain_env (Some (Ret true))) default_store
                 (PStr "Yes")) as (_ & Hrm & _);
      [reflexivity | discriminate | reflexivity |].
    exact Hrm.
  - edestruct (setter_true_probes (plain_env None) default_store
                 (PBool true)) as (_ & _ & _ & _ & Hw & _);
      [reflexivity | discriminate | reflexivity |].
    exact Hw.
Defined.

(** What a read returns is what the cache holds afterwards. *)
Lemma getter_returns_cache E self v self1 :
  resource_monitor E self = (Ret v, self1) ->
  v = py_of_cache (_resource_monitor self1).
Proof.
  unfold resource_monitor, bind, get_resource_monitor, _config_get, ret.
  destruct (_resource_monitor self) as [b |] eqn:Hrm.
  - intros [= <- <-]. now rewrite Hrm.
  - destruct (ConfigParser.get (_config self) "execution" "resource_monitor")
      as [e | s]; [discriminate |].
    destruct (resource_monitor_setter E _ self) as [[e | []] self2];
      [discriminate |].
    now intros [= <- <-].
Qed.

(** X11.  The cache is sticky: once a read has returned a boolean, the
    next read returns the same boolean and leaves the store, probe
    counter included, exactly as it is. *)
Theorem getter_repeats (E : Env) (self self1 : NipypeConfig) (v : pyval) :
  resource_monitor E self = (Ret v, self1) ->
  v <> PNone ->
  resource_monitor E self1 = (Ret v, self1).
Proof.
  intros Hread Hv. apply getter_returns_cache in Hread as ->.
  unfold resource_monitor, bind, get_resource_monitor.
  destruct (_resource_monitor self1) as [b |]; [reflexivity |].
  now destruct Hv.
Qed.

Lemma getter_repeats_witness :
  resource_monitor (plain_env None)
    (snd (resource_monitor (plain_env None) default_store))
  = (Ret (PBool false), snd (resource_monitor (plain_env None) default_store)).
Proof.
  apply (getter_repeats (plain_env None) default_store).
  - reflexivity.
  - discriminate.
Defined.

End Probe.

(** ** Construction *)

Section Construction.
Import PyStr ConfigParser ConfigStore.










Lemma wf_loaded_prefix (l : list ini) cp :
  wf cp -> wf (fold_left overlay l cp).
Proof.
  revert cp. induction l as [| src l IH]; intros cp Hwf; [exact Hwf |].
  cbn [fold_left]. apply IH. now apply wf_read.
Qed.





Lemma stored_has_option cp section option v :
  is_default section = false ->
  stored cp section (optionxform option) = Some v ->
  ConfigParser.has_option cp section option = true.
Proof.
  intros Hdef Hst. unfold stored in Hst. unfold ConfigParser.has_option.
  rewrite Hdef.
  destruct (_sections cp !! section) as [d |]; [| discriminate].
  cbn in Hst. unfold py_in. now rewrite Hst.
Qed.

Lemma template_sections_named h c section items :
  In (section, items) (default_cfg h c) -> is_default section = false.
Proof.
  unfold default_cfg.
  intros [H | [H | [H | []]]]; injection H as <- _; reflexivity.
Qed.

(** X14.  Every option of the built-in template is present in every
    constructed store, whatever the configuration files hold and
    whether construction returned or raised. *)
Theorem template_options_present (E : Env) (section option value : string) :
  in_template E section option value ->
  ConfigParser.has_option (_config (snd (__init__ E))) section option = true.
Proof.
  intros Hin.
  assert (Hbase : ConfigParser.has_option
                    (overlay ConfigParser.empty
                       (default_cfg (homedir E) (getcwd E)))
                    section option = true).
  { pose proof (template_stored ConfigParser.empty _ _ _ _ _ Hin) as Hst.
    destruct Hin as (items & Hsec & Hopt).
    apply (stored_has_option _ _ _ value).
    - exact (template_sections_named _ _ _ _ Hsec).
    - pose proof (template_keys_lower _ _ _ _ (option, value) Hsec Hopt)
        as Hk.
      cbn [fst] in Hk. now rewrite Hk. }
  pose proof (stable_has_option section option) as Hstable.
  assert (Hrest : keeps (fun cp => ConfigParser.has_option cp section option
                                   = true)
                    (set_resource_monitor None ;;;
                     (if config_dir_exists E
                      then _config_read [config_file E; cwd_nipype_cfg E]
                      else ret tt) ;;;
                     migrate (map fst CONFIG_DEPRECATIONS))%py).
  { apply keeps_bind; [apply keeps_set_resource_monitor | intros _].
    apply keeps_bind; [| intros _; now apply keeps_migrate].
    destruct (config_dir_exists E); [| apply keeps_ret].
    unfold _config_read. apply keeps_for_each. intros [source |].
    - now apply keeps_config_readfp.
    - apply keeps_ret. }
  unfold __init__. unfold bind at 1.
  unfold _config_readfp at 1. cbn [_config fresh]. rewrite read_template.
  apply Hrest. exact Hbase.
Qed.

Lemma template_options_present_witness :
  ConfigParser.has_option (_config (snd (__init__ legacy_env)))
    "check" "interval" = true.
Proof.
  apply (template_options_present legacy_env "check" "interval" "1209600").
  exists [("interval", "1209600")]. split; cbn; auto.
Defined.

End Construction.

(** ** More on the JSON side file *)

Section SideFileEdges.
Import DataFile.

Variable text : Type.
Variable empty_text : text.
Variable load : text -> result json.
Variable dump : json -> text.

Lemma contains_getitem key d :
  PyDict.contains key d
  = match PyDict.getitem key d with Some _ => true | None => false end.
Proof.
  induction d as [| [k v] d IH]; [reflexivity |].
  cbn. now destruct (String.eqb k key).
Qed.

(** X15.  [get_data] only reads: the file system is the same afterwards.
    Without a data file it returns [None] and creates nothing; with a
    file that holds an object it returns the value of the key, or
    [None] for a key that the object does not have. *)
Theorem get_data_reads_only (key : string) (fs : FS text) :
  snd (get_data text load key fs) = fs
  /\ (data_file fs = None -> fst (get_data text load key fs) = Ret JNull)
  /\ (forall file d,
        data_file fs = Some file -> load file = Ret (JDict d) ->
        fst (get_data text load key fs)
        = Ret (default JNull (PyDict.getitem key d))).
Proof.
  unfold get_data. split; [| split].
  - now destruct (data_file fs).
  - now intros ->.
  - intros file d -> ->. cbn. rewrite contains_getitem.
    now destruct (PyDict.getitem key d).
Qed.

Lemma mkdir_p_returns (fs fs' : FS text) :
  mkdir_p text fs = (Ret tt, fs') ->
  dirname fs' = Directory
  /\ data_file fs' = data_file fs
  /\ makedirs_raises fs' = makedirs_raises fs.
Proof.
  unfold mkdir_p, os_makedirs, isdir.
  destruct (makedirs_raises fs) as [[errno after] |] eqn:Hm.
  - destruct (Nat.eqb errno EEXIST); cbn [andb]; [| discriminate].
    cbn [dirname with_dirname].
    destruct after; try discriminate.
    intros [= <-]. cbn. now rewrite Hm.
  - destruct (dirname fs) eqn:Hd; cbn; rewrite ?Hd; cbn.
    + intros [= <-]. cbn. now rewrite Hm.
    + intros [= <-]. now rewrite Hd.
    + discriminate.
Qed.


(** X17.  [save_data] rewrites the whole object.  When the data file
    holds an object, or is missing while its directory is there or can
    be made, the call returns and the file then holds the dump of that
    object (the empty one for a missing file) with the key set, in a
    directory that exists.  With a [load] that reads back what [dump]
    wrote, [get_data] then returns the saved value for the key, and
    every other key reads as before. *)
Theorem save_data_rewrites (key : string) (value : json) (fs : FS text)
    (d : list (string * json)) :
  previous text load fs = Ret (JDict d) ->
  (data_file fs = None ->
   dirname fs = Directory
   \/ (dirname fs = Missing /\ fst (mkdir_p text fs) = Ret tt)) ->
  exists fs',
    save_data text empty_text load dump key value fs = (Ret tt, fs')
    /\ data_file fs' = Some (dump (JDict (PyDict.setitem key value d)))
    /\ (data_file fs = None -> dirname fs' = Directory)
    /\ ((forall d', load (dump (JDict d')) = Ret (JDict d')) ->
        get_data text load key fs' = (Ret value, fs')
        /\ forall key', key' <> key ->
             fst (get_data text load key' fs')
             = fst (get_data text load key' fs)).
Proof.
  unfold previous. intros Hprev Hdir.
  assert (Hget : forall (fs' : FS text),
            data_file fs' = Some (dump (JDict (PyDict.setitem key value d))) ->
            (forall d', load (dump (JDict d')) = Ret (JDict d')) ->
            get_data text load key fs' = (Ret value, fs')
            /\ forall key', key' <> key ->
                 fst (get_data text load key' fs')
                 = Ret (default JNull (PyDict.getitem key' d))).
  { intros fs' Hf Hcodec. unfold get_data. rewrite Hf, Hcodec.
    cbn [rbind py_contains py_getitem fst]. split.
    - now rewrite setitem_contains, setitem_getitem.
    - intros key' Hne.
      rewrite contains_getitem, (setitem_getitem_other _ _ _ _ Hne).
      now destruct (PyDict.getitem key' d). }
  assert (Hold : forall key',
            fst (get_data text load key' fs)
            = Ret (default JNull (PyDict.getitem key' d))).
  { intros key'. unfold get_data.
    destruct (data_file fs) as [file |].
    - rewrite Hprev. cbn. rewrite contains_getitem.
      now destruct (PyDict.getitem key' d).
    - now injection Hprev as <-. }
  assert (Hfinish : forall fs1 : FS text,
            (data_file fs1 = None -> dirname fs1 = Directory) ->
            (data_file fs = None -> dirname fs1 = Directory) ->
            exists fs',
              match open_wt text empty_text fs1 with
              | (Raise e, fs'') => (Raise e, fs'')
              | (Ret _, fs'') =>
                  match py_setitem (JDict d) key value with
                  | Raise e => (Raise e, fs'')
                  | Ret datadict' =>
                      (Ret tt, write_file text (dump datadict') fs'')
                  end
              end = (Ret tt, fs')
              /\ data_file fs'
                 = Some (dump (JDict (PyDict.setitem key value d)))
              /\ (data_file fs = None -> dirname fs' = Directory)
              /\ ((forall d', load (dump (JDict d')) = Ret (JDict d')) ->
                  get_data text load key fs' = (Ret value, fs')
                  /\ forall key', key' <> key ->
                       fst (get_data text load key' fs')
                       = fst (get_data text load key' fs))).
  { intros fs1 Hopen Hkeep. unfold open_wt.
    assert (Hw : (match data_file fs1, dirname fs1 with
                  | Some _, _ | None, Directory =>
                      (Ret tt, write_file text empty_text fs1)
                  | None, Missing => (Raise (OSError ENOENT), fs1)
                  | None, NotDirectory => (Raise (OSError ENOTDIR), fs1)
                  end) = (Ret tt, write_file text empty_text fs1)).
    { destruct (data_file fs1); [now destruct (dirname fs1) |].
      now rewrite (Hopen eq_refl). }
    rewrite Hw. cbn [py_setitem]. eexists. split; [reflexivity |].
    split; [reflexivity |]. split; [exact Hkeep |].
    intros Hcodec.
    destruct (Hget (write_file text
                      (dump (JDict (PyDict.setitem key value d)))
                      (write_file text empty_text fs1)) eq_refl Hcodec)
      as [Hk Hother].
    split; [exact Hk |]. intros key' Hne.
    now rewrite (Hother key' Hne), Hold. }
  unfold save_data.
  destruct (data_file fs) as [file |] eqn:Hfile.
  - rewrite Hprev. apply Hfinish; [now rewrite Hfile | discriminate].
  - injection Hprev as <-.
    destruct (Hdir eq_refl) as [Hd | [Hd Hmk]]; rewrite Hd.
    + apply Hfinish; auto.
    + destruct (mkdir_p text fs) as [[e | []] fs1] eqn:Hrun;
        [discriminate |].
      destruct (mkdir_p_returns _ _ Hrun) as (Hd1 & _ & _).
      apply Hfinish; auto.
Qed.

(** X18.  [save_data] on a file it cannot use.  When [load] raises, the
    error gets through and nothing is written.  When the file holds
    JSON that is not an object, the call raises [TypeError] after the
    file was opened for writing: the file is left empty and its
    previous content is lost. *)
Theorem save_data_on_bad_file (key : string) (value : json) (fs : FS text)
    (file : text) :
  data_file fs = Some file ->
  (forall e, load file = Raise e ->
     save_data text empty_text load dump key value fs = (Raise e, fs))
  /\ (forall j, load file = Ret j -> (forall d, j <> JDict d) ->
       save_data text empty_text load dump key value fs
       = (Raise (TypeError "object does not support item assignment"),
          {| dirname := dirname fs;
             data_file := Some empty_text;
             makedirs_raises := makedirs_raises fs |})).
Proof.
  intros Hfile. unfold save_data. rewrite Hfile. split.
  - now intros e ->.
  - intros j -> Hj. unfold open_wt. rewrite Hfile.
    destruct j as [| b | z | x | s | l | d]; try reflexivity.
    now destruct (Hj d).
Qed.

(** X21.  [save_data] without a place for the file.  With no data file
    and no directory, an error of [mkdir_p] gets through; with no data
    file and a path that is not a directory in the place of the
    directory, opening the file raises [OSError].  In both cases no
    data file is made. *)
Theorem save_data_without_directory (key : string) (value : json)
    (fs : FS text) :
  data_file fs = None ->
  (dirname fs = Missing ->
   forall e fs1, mkdir_p text fs = (Raise e, fs1) ->
     save_data text empty_text load dump key value fs = (Raise e, fs1)
     /\ data_file fs1 = None)
  /\ (dirname fs = NotDirectory ->
      save_data text empty_text load dump key value fs
      = (Raise (OSError ENOTDIR), fs)).
Proof.
  intros Hfile. unfold save_data. rewrite Hfile. split.
  - intros Hd e fs1 Hrun. rewrite Hd, Hrun. split; [reflexivity |].
    revert Hrun. unfold mkdir_p, os_makedirs.
    destruct (makedirs_raises fs) as [[errno after] |].
    + destruct (Nat.eqb errno EEXIST && isdir text _); [discriminate |].
      now intros [= _ <-].
    + rewrite Hd. discriminate.
  - intros Hd. rewrite Hd. unfold open_wt. now rewrite Hfile, Hd.
Qed.

End SideFileEdges.

Section SideFileExamples.
Import DataFile.

Lemma save_data_rewrites_witness :
  exists fs',
    save_data json JNull Ret id "b" (JInt 2)
      {| dirname := Missing; data_file := None; makedirs_raises := None |}
    = (Ret tt, fs')
    /\ data_file fs' = Some (JDict [("b", JInt 2)])
    /\ dirname fs' = Directory.
Proof.
  destruct (save_data_rewrites json JNull Ret id "b" (JInt 2)
              {| dirname := Missing; data_file := None;
                 makedirs_raises := None |}
              [] eq_refl)
    as (fs' & Hrun & Hfile & Hdir & _).
  - intros _. right. split; reflexivity.
  - exists fs'. auto.
Defined.

Lemma save_data_on_bad_file_witness :
  save_data json JNull Ret id "k" (JInt 1)
    {| dirname := Directory; data_file := Some (JList [JInt 7]);
       makedirs_raises := None |}
  = (Raise (TypeError "object does not support item assignment"),
     {| dirname := Directory; data_file := Some JNull;
        makedirs_raises := None |}).
Proof.
  apply (proj2 (save_data_on_bad_file json JNull Ret id "k" (JInt 1)
                  {| dirname := Directory;
                     data_file := Some (JList [JInt 7]);
                     makedirs_raises := None |}
                  (JList [JInt 7]) eq_refl) (JList [JInt 7]) eq_refl).
  discriminate.
Defined.

Lemma save_data_without_directory_witness :
  save_data json JNull Ret id "k" (JInt 1)
    {| dirname := Missing; data_file := None;
       makedirs_raises := Some (13, Missing) |}
  = (Raise (OSError 13),
     {| dirname := Missing; data_file := None;
        makedirs_raises := Some (13, Missing) |}).
Proof.
  apply (proj1 (save_data_without_directory json JNull Ret id "k" (JInt 1)
                  {| dirname := Missing; data_file := None;
                     makedirs_raises := Some (13, Missing) |} eq_refl)
           eq_refl).
  reflexivity.
Defined.

End SideFileExamples.

(** ** [update_config] *)

Section BulkUpdate.
Import PyStr ConfigParser ConfigStore.

Variable py_str : pyval -> string.

Lemma with_config_twice cp cp' self :
  with_config cp (with_config cp' self) = with_config cp self.
Proof. reflexivity. Qed.

(** The items of one section, written one by one, are that section read
    from a source. *)
Lemma update_section section items self d :
  is_default section = false ->
  _sections (_config self) !! section = Some d ->
  (forall k v, In (k, v) items -> startswith "__" k = false ->
               has_percent (py_str v) = false) ->
  for_each items (update_item py_str section) self
  = (Ret tt,
     with_config (overlay_section (_config self)
                    (section, update_lines py_str items)) self).
Proof.
  intros Hdef. revert self d.
  induction items as [| [k v] items IH]; intros self d Hd Hplain.
  - cbn. unfold overlay_section. rewrite Hd. cbn.
    rewrite (insert_id _ _ _ Hd).
    now destruct self as [[defaults sections] rm ws n].
  - cbn [for_each]. unfold bind, update_item at 1. cbn [fst snd].
    unfold update_lines. cbn [List.filter fst].
    destruct (startswith "__" k) eqn:Hk; cbn [negb].
    + unfold ret. apply (IH self d Hd).
      intros k' v' Hin. apply Hplain. now right.
    + rewrite (config_set_named section k (py_str v) d self Hdef Hd)
        by (apply (Hplain k v); [now left | exact Hk]).
      rewrite (IH _ (<[optionxform k := py_str v]> d)).
      * rewrite with_config_twice. f_equal. f_equal.
        unfold overlay_section. cbn [_config with_config _sections _defaults map].
        rewrite lookup_insert_eq, Hd. cbn [overlay_options fold_left fst snd].
        now rewrite insert_insert_eq.
      * cbn. now rewrite lookup_insert_eq.
      * intros k' v' Hin. apply Hplain. now right.
Qed.

Lemma read_section_keeps_sections cp sec s :
  is_Some (_sections cp !! s) ->
  is_Some (_sections (overlay_section cp sec) !! s).
Proof.
  destruct sec as [sectname items]. unfold overlay_section. intros Hs.
  destruct (_sections cp !! sectname) as [cursect |];
    [| destruct (String.eqb sectname default_section)];
    cbn [_sections]; try exact Hs;
    (destruct (decide (sectname = s)) as [-> | Hne];
     [rewrite lookup_insert_eq; eauto | now rewrite lookup_insert_ne]).
Qed.

Lemma update_source_cons s names config_dict :
  update_source py_str (s :: names) config_dict
  = match dict_get s config_dict with
    | Some items =>
        (s, update_lines py_str items)
        :: update_source py_str names config_dict
    | None => update_source py_str names config_dict
    end.
Proof.
  unfold update_source. cbn. now destruct (dict_get s config_dict).
Qed.

Lemma update_names names config_dict self :
  (forall s, In s names -> is_default s = false) ->
  (forall s items, In s names -> dict_get s config_dict = Some items ->
                   is_Some (_sections (_config self) !! s)) ->
  (forall s items k v,
      In s names -> dict_get s config_dict = Some items ->
      In (k, v) items -> startswith "__" k = false ->
      has_percent (py_str v) = false) ->
  for_each names (fun section =>
    match dict_get section config_dict with
    | Some items => for_each items (update_item py_str section)
    | None => ret tt
    end) self
  = (Ret tt,
     with_config (overlay (_config self)
                    (update_source py_str names config_dict)) self).
Proof.
  intros Hnamed. revert self.
  induction names as [| s names IH]; intros self Hexist Hplain.
  - cbn. now destruct self as [[defaults sections] rm ws n].
  - cbn [for_each]. unfold bind. rewrite update_source_cons.
    destruct (dict_get s config_dict) as [items |] eqn:Hget.
    + destruct (Hexist s items (or_introl eq_refl) Hget) as [d Hd].
      rewrite (update_section s items self d
                 (Hnamed s (or_introl eq_refl)) Hd)
        by (intros k v; apply (Hplain s items); [now left | exact Hget]).
      rewrite IH.
      * reflexivity.
      * intros s' Hs'. apply Hnamed. now right.
      * intros s' items' Hs' Hget'. cbn [_config with_config].
        apply read_section_keeps_sections.
        apply (Hexist s' items'); [now right | exact Hget'].
      * intros s' items' k v Hs'. apply Hplain. now right.
    + unfold ret. apply IH.
      * intros s' Hs'. apply Hnamed. now right.
      * intros s' items' Hs'. apply Hexist. now right.
      * intros s' items' k v Hs'. apply Hplain. now right.
Qed.

(** X19.  [update_config] is an overlay: when the visited sections that
    the dictionary names exist in the tree and no written value holds a
    percent sign, the call returns and leaves the parser as if it had
    read a source with, for each of [execution], [logging] and [check]
    that the dictionary has, the items whose key does not start with
    two underscores, values passed through [str].  Sections of any
    other name in the dictionary are ignored, deprecated names are
    written as they are, and nothing outside the tree changes. *)
Theorem update_config_overlays
    (config_dict : list (string * list (string * pyval)))
    (self : NipypeConfig) :
  (forall s items,
      In s ["execution"; "logging"; "check"] ->
      dict_get s config_dict = Some items ->
      is_Some (_sections (_config self) !! s)) ->
  (forall s items k v,
      In s ["execution"; "logging"; "check"] ->
      dict_get s config_dict = Some items ->
      In (k, v) items -> startswith "__" k = false ->
      has_percent (py_str v) = false) ->
  update_config py_str config_dict self
  = (Ret tt,
     with_config
       (overlay (_config self)
          (update_source py_str ["execution"; "logging"; "check"]
             config_dict))
       self).
Proof.
  intros Hexist Hplain. unfold update_config. apply update_names.
  - intros s [<- | [<- | [<- | []]]]; reflexivity.
  - exact Hexist.
  - exact Hplain.
Qed.

Lemma for_each_only_config {A} (l : list A) (body : A -> M unit) :
  (forall x self, only_config self (snd (body x self))) ->
  forall self, only_config self (snd (for_each l body self)).
Proof.
  intros Hbody. induction l as [| x l IH]; intros self.
  - now repeat split.
  - cbn [for_each]. unfold bind. specialize (Hbody x self).
    destruct (body x self) as [[e | []] self1]; cbn [snd] in *;
      [exact Hbody |].
    specialize (IH self1). unfold only_config in *.
    destruct Hbody as (H1 & H2 & H3), IH as (I1 & I2 & I3).
    repeat split; congruence.
Qed.

(** X20.  Whatever the dictionary holds and whether the call returns or
    raises, [update_config] leaves the cache, the warnings and the probe
    counter alone: it warns about no deprecated name. *)
Theorem update_config_only_config
    (config_dict : list (string * list (string * pyval)))
    (self : NipypeConfig) :
  only_config self (snd (update_config py_str config_dict self)).
Proof.
  unfold update_config. apply for_each_only_config. intros section self0.
  destruct (dict_get section config_dict) as [items |];
    [| now repeat split].
  apply for_each_only_config. intros kv self1. unfold update_item.
  destruct (negb _); [| now repeat split].
  unfold _config_set.
  destruct (ConfigParser.set _ _ _ _); now repeat split.
Qed.

End BulkUpdate.

Section BulkUpdateExamples.
Import PyStr ConfigParser ConfigStore.

Lemma update_config_overlays_witness :
  update_config sample_str sample_config_dict default_store
  = (Ret tt,
     with_config
       (overlay (_config default_store)
          [ ("execution", [ ("profile_runtime", "True");
                            ("Plugin", "MultiProc") ]);
            ("check", [ ("interval", "3600") ]) ])
       default_store).
Proof.
  apply (update_config_overlays sample_str sample_config_dict default_store).
  - intros s items [<- | [<- | [<- | []]]] Hget;
      try discriminate Hget; eexists; reflexivity.
  - intros s items k v [<- | [<- | [<- | []]]] Hget;
      try discriminate Hget; injection Hget as <-;
      intros Hin Hk;
      repeat (destruct Hin as [Hin | Hin];
              [injection Hin as <- <-; try reflexivity; discriminate Hk |]);
      destruct Hin.
Defined.

End BulkUpdateExamples.
